(** * PR reviewer rotation: [.github/scripts/assign_reviewer.py]

    A shallow embedding of the reviewer-assignment script and the
    properties of its rotation engine and reconciliation driver.

    Layout:
    - [Python]: the few Python primitives the script relies on (floored
      [%], list slices with index normalisation, [datetime] differences,
      the two regular expressions handed to [re.findall]);
    - [Script]: the script itself, method by method, as programs of a
      writer monad with exceptions: what a process reads comes from an
      [Env] record, what it does to the outside world (HTTP calls, log
      records at WARNING and ERROR level) is the emitted event list;
    - [Spec]: the rotation and decision functions written after the
      specification's wording, to compare the script against;
    - [Driver]: [run] seen as a decision that is carried out, and the
      job re-run against the service;
    - [Scenario]: concrete processes;
    - the theorems. *)

From Stdlib Require Import ZArith Lia Ascii String.
From stdpp Require Import base decidable list strings gmap sets.

Local Open Scope Z_scope.

(* ===================================================================== *)
(** ** Python primitives                                                  *)
(* ===================================================================== *)

Module Python.

(** Exceptions that reach the top of the script.  [SystemExit] is what
    [sys.exit] raises. *)
Inductive exn : Type :=
| ZeroDivisionError
| IndexError
| SystemExit (code : Z).

Inductive outcome (A : Type) : Type :=
| Return (a : A)
| Raise (e : exn).
Arguments Return {A} a.
Arguments Raise {A} e.

(** [len(l)] *)
Definition len {A} (l : list A) : Z := Z.of_nat (length l).

(** [a % b] on [int]: floored, the sign of the result follows [b];
    dividing by zero raises. *)
Definition py_mod (a b : Z) : outcome Z :=
  if b =? 0 then Raise ZeroDivisionError else Return (a mod b).

(** [a // b] on [int]. *)
Definition py_floordiv (a b : Z) : outcome Z :=
  if b =? 0 then Raise ZeroDivisionError else Return (a / b).

(** Normalisation of one slice bound against a list of length [n]:
    a negative bound counts from the end, and the result is clamped to
    [0 .. n].  Slices never raise. *)
Definition slice_index (n i : Z) : nat :=
  Z.to_nat (if i <? 0 then Z.max 0 (n + i) else Z.min i n).

(** [l[i:]] *)
Definition slice_from {A} (l : list A) (i : Z) : list A :=
  drop (slice_index (len l) i) l.

(** [l[:j]] *)
Definition slice_to {A} (l : list A) (j : Z) : list A :=
  take (slice_index (len l) j) l.

(** [l[i]] for [i >= 0] (the script only uses [l[0]]). *)
Definition getitem {A} (l : list A) (i : nat) : outcome A :=
  match l !! i with
  | Some x => Return x
  | None => Raise IndexError
  end.

(** *** [datetime]

    A naive [datetime] is the number of microseconds since midnight of
    proleptic Gregorian day 0; a [timedelta] is a number of
    microseconds, and its [days] attribute is the floored quotient
    (Python normalises [seconds] and [microseconds] to be
    non-negative and lets [days] carry the sign). *)
Definition datetime := Z.
Definition timedelta := Z.

Definition US_PER_DAY : Z := 86400 * 1000000.

Definition is_leap (y : Z) : bool :=
  (y mod 4 =? 0) && (negb (y mod 100 =? 0) || (y mod 400 =? 0)).

Definition days_before_year (y : Z) : Z :=
  let p := y - 1 in p * 365 + p / 4 - p / 100 + p / 400.

Definition days_before_month (y m : Z) : Z :=
  nth (Z.to_nat m) [0; 0; 31; 59; 90; 120; 151; 181; 212; 243; 273; 304; 334] 0
  + (if (2 <? m) && is_leap y then 1 else 0).

Definition ymd2ord (y m d : Z) : Z :=
  days_before_year y + days_before_month y m + d.

(** [datetime(y, m, d)] *)
Definition mk_datetime (y m d : Z) : datetime := ymd2ord y m d * US_PER_DAY.

(** [a - b] *)
Definition datetime_sub (a b : datetime) : timedelta := a - b.

(** [td.days] *)
Definition days (td : timedelta) : Z := td / US_PER_DAY.

(** *** [re.findall]

    Both patterns of the script have one group and only match
    non-empty text, so [re.findall] is a left-to-right scan that, at
    each position not covered by the previous match, tries the
    pattern and on success records group 1 and resumes after the
    match.  [m] is the pattern tried at the head of the remaining
    text; it returns the group and the length of the whole match.
    [skip] counts the characters still covered by the last match.
    The text is the UTF-8 encoding of the document: the patterns
    only name ASCII characters, and no byte of a multi-byte character
    is one. *)
Fixpoint findall (m : list ascii -> option (list ascii * nat))
    (skip : nat) (s : list ascii) : list string :=
  match s with
  | [] => []
  | _ :: s' =>
      match skip with
      | S k => findall m k s'
      | O =>
          match m s with
          | Some (g, n) => string_of_list_ascii g :: findall m (n - 1) s'
          | None => findall m 0 s'
          end
      end
  end.

Definition in_range (lo hi c : ascii) : bool :=
  (nat_of_ascii lo <=? nat_of_ascii c)%nat && (nat_of_ascii c <=? nat_of_ascii hi)%nat.

(** the character class [[a-zA-Z0-9_-]] *)
Definition name_char (c : ascii) : bool :=
  in_range "a" "z" c || in_range "A" "Z" c || in_range "0" "9" c
  || Ascii.eqb c "_" || Ascii.eqb c "-".

(** the longest prefix of [s] made of name characters, and the rest *)
Fixpoint span_name (s : list ascii) : list ascii * list ascii :=
  match s with
  | c :: s' =>
      if name_char c then let '(n, r) := span_name s' in (c :: n, r)
      else ([], s)
  | [] => ([], [])
  end.

(** [s] starts with the literal [lit]: the rest of [s] after it *)
Fixpoint literal (lit s : list ascii) : option (list ascii) :=
  match lit, s with
  | [], _ => Some s
  | a :: lit', b :: s' => if Ascii.eqb a b then literal lit' s' else None
  | _ :: _, [] => None
  end.

(** [[a-zA-Z0-9_-]+]: greedy.  In both patterns the class is followed
    by the end of the pattern or by a literal outside the class, so a
    shorter repetition can never succeed where the longest fails and
    no backtracking is needed. *)
Definition name_plus (s : list ascii) : option (list ascii * list ascii) :=
  match span_name s with
  | ([], _) => None
  | (n, r) => Some (n, r)
  end.

(** [r'@([a-zA-Z0-9_-]+)'] *)
Definition at_pattern (s : list ascii) : option (list ascii * nat) :=
  match s with
  | c :: s1 =>
      if Ascii.eqb c "@" then
        match name_plus s1 with
        | Some (g, _) => Some (g, S (length g))
        | None => None
        end
      else None
  | [] => None
  end.

(** [r'\[([a-zA-Z0-9_-]+)\]\(https://github\.com/[a-zA-Z0-9_-]+\)'] *)
Definition link_pattern (s : list ascii) : option (list ascii * nat) :=
  match s with
  | c :: s1 =>
      if Ascii.eqb c "[" then
        match name_plus s1 with
        | Some (g, s2) =>
            match literal (list_ascii_of_string "](https://github.com/") s2 with
            | Some s3 =>
                match name_plus s3 with
                | Some (u, s4) =>
                    match s4 with
                    | c4 :: _ =>
                        if Ascii.eqb c4 ")"
                        then Some (g, (1 + length g + 21 + length u + 1)%nat)
                        else None
                    | [] => None
                    end
                | None => None
                end
            | None => None
            end
        | None => None
        end
      else None
  | [] => None
  end.

Definition findall_at (content : string) : list string :=
  findall at_pattern 0 (list_ascii_of_string content).

Definition findall_link (content : string) : list string :=
  findall link_pattern 0 (list_ascii_of_string content).

(** A GitHub handle as the patterns capture it: a non-empty string over
    the character class. *)
Definition handle (x : string) : bool :=
  match list_ascii_of_string x with
  | [] => false
  | cs => forallb name_char cs
  end.

End Python.
Import Python.


(* ===================================================================== *)
(** ** The script                                                         *)
(* ===================================================================== *)

Module Script.

(** *** What a run does to the outside world *)

Inductive level : Type := WARNING | ERROR.

(** [HttpGet repo pr] and [HttpPost repo pr reviewers] are the two
    requests to [/repos/{repo}/pulls/{pr}/requested_reviewers];
    [Log] is a [logger.warning] or [logger.error] record
    ([logger.info] lines are diagnostics and are not recorded). *)
Inductive event : Type :=
| Log (lv : level) (msg : string)
| HttpGet (repo : string) (pr : Z)
| HttpPost (repo : string) (pr : Z) (reviewers : list string).

(** A program returns or raises, and emits events on the way. *)
Definition Py (A : Type) : Type := outcome A * list event.

#[global] Instance Py_ret : MRet Py := fun _ a => (Return a, []).

#[global] Instance Py_bind : MBind Py := fun _ _ f m =>
  match m with
  | (Return a, w) => let '(r, w') := f a in (r, w ++ w')
  | (Raise e, w) => (Raise e, w)
  end.

Definition emit (e : event) : Py unit := (Return tt, [e]).
Definition raise {A} (e : exn) : Py A := (Raise e, []).
Definition lift {A} (o : outcome A) : Py A := (o, []).

Definition result {A} (m : Py A) : outcome A := m.1.
Definition events {A} (m : Py A) : list event := m.2.

(** the reviewer lists of the write requests among some events *)
Definition posts (w : list event) : list (list string) :=
  omap (fun e => match e with HttpPost _ _ rs => Some rs | _ => None end) w.

(** *** What a run reads *)

(** [open(...)] followed by reading and decoding: the file is
    missing, reading or decoding raised another exception (with its
    text), or it yields a value. *)
Inductive file_read (A : Type) : Type :=
| FileNotFoundError
| ReadException (e : string)
| Contents (a : A).
Arguments FileNotFoundError {A}.
Arguments ReadException {A} e.
Arguments Contents {A} a.

(** [requests.get/post] followed by [raise_for_status()]. *)
Inductive http (A : Type) : Type :=
| RequestException (e : string)
| Response (a : A).
Arguments RequestException {A} e.
Arguments Response {A} a.

(** The [sprint_config] object of the configuration, with its three
    integer fields (a file that parses to something else is outside
    this model). *)
Record SprintConfig : Type := {
  weeks_per_sprint : Z;
  reviewers_per_pr : Z;
  pool_size : Z;
}.

(** Everything one process reads from outside: the two files, the
    clock ([datetime.now()]), the answers of the service to the read
    and to the write request on a repository and pull request (the
    read answers with the logins under ['users'], if that key is
    there), and the environment variable.  [set_order] is the order in
    which this interpreter process iterates over the [set] built by
    inserting the given strings in the given order: Python fixes it
    only up to the process (string hashes are salted per process), see
    [set_order_ok]. *)
Record Env : Type := {
  config_json : file_read SprintConfig;
  maintainers_md : file_read string;
  now : datetime;
  set_order : list string -> list string;
  requested_reviewers : string -> Z -> http (option (list string));
  request_reviewers : string -> Z -> list string -> http unit;
  GITHUB_TOKEN : option string;
}.

(** What the language guarantees of [list(set)]: each inserted string
    once, nothing else. *)
Definition set_order_ok (f : list string -> list string) : Prop :=
  forall ins, NoDup (f ins) /\ forall x, x ∈ f ins <-> x ∈ ins.

(** *** Module constants *)

Definition SPRINT_WEEKS : Z := 3.
Definition MAINTAINERS_FILE : string := "MAINTAINERS.md".
Definition CONFIG_FILE : string := ".github/scripts/config.json".

Definition default_config : SprintConfig :=
  {| weeks_per_sprint := 3; reviewers_per_pr := 2; pool_size := 3 |}.

(** *** [class ReviewerAssigner]

    ([self.headers] is a function of [token] and is left out.) *)

Record ReviewerAssigner : Type := {
  repo : string;
  token : string;
  test_mode : bool;
  config : SprintConfig;
}.

Section Process.
Variable env : Env.

Definition load_config : Py SprintConfig :=
  match config_json env with
  | Contents c => mret c
  | FileNotFoundError =>
      emit (Log WARNING ("Config file " +:+ CONFIG_FILE +:+ " not found, using defaults"));;
      mret default_config
  | ReadException e =>
      emit (Log ERROR ("Error loading config: " +:+ e));;
      mret default_config
  end.

Definition init (repo : string) (token : string) (test_mode : bool)
  : Py ReviewerAssigner :=
  config ← load_config;
  mret {| repo := repo; token := token; test_mode := test_mode; config := config |}.

Definition get_maintainers (self : ReviewerAssigner) : Py (list string) :=
  match maintainers_md env with
  | Contents content =>
      let usernames := findall_at content ++ findall_link content in
      let maintainers := set_order env usernames in
      mret maintainers
  | FileNotFoundError =>
      emit (Log ERROR "MAINTAINERS.md file not found");;
      mret []
  | ReadException e =>
      emit (Log ERROR ("Error reading MAINTAINERS.md: " +:+ e));;
      mret []
  end.

Definition get_sprint_start_date (self : ReviewerAssigner) : datetime :=
  mk_datetime 2024 1 1.

Definition get_current_sprint_number (self : ReviewerAssigner) : Py Z :=
  let start_date := get_sprint_start_date self in
  let current_date := now env in
  let days_diff := days (datetime_sub current_date start_date) in
  q ← lift (py_floordiv days_diff (SPRINT_WEEKS * 7));
  let sprint_number := q + 1 in
  mret sprint_number.

Definition get_reviewer_pool (self : ReviewerAssigner) : Py (list string) :=
  maintainers ← get_maintainers self;
  if bool_decide (maintainers = []) then mret []
  else
    sprint_number ← get_current_sprint_number self;
    start_index ← lift (py_mod (sprint_number - 1) (len maintainers));
    let rotated_pool :=
      slice_from maintainers start_index ++ slice_to maintainers start_index in
    let pool_size := Z.min (pool_size (config self)) (len rotated_pool) in
    let current_pool := slice_to rotated_pool pool_size in
    mret current_pool.

Definition get_pr_reviewers (self : ReviewerAssigner) (pr_number : Z)
  : Py (gset string) :=
  emit (HttpGet (repo self) pr_number);;
  match requested_reviewers env (repo self) pr_number with
  | Response data =>
      let reviewers : gset string :=
        match data with
        | Some users => list_to_set users
        | None => ∅
        end in
      mret reviewers
  | RequestException e =>
      emit (Log ERROR ("Error getting PR reviewers: " +:+ e));;
      mret ∅
  end.

Definition assign_reviewers (self : ReviewerAssigner) (pr_number : Z)
    (reviewers : list string) : Py bool :=
  if bool_decide (reviewers = []) then
    emit (Log WARNING "No reviewers to assign");;
    mret false
  else if test_mode self then mret true
  else
    emit (HttpPost (repo self) pr_number reviewers);;
    match request_reviewers env (repo self) pr_number reviewers with
    | Response _ => mret true
    | RequestException e =>
        emit (Log ERROR ("Error assigning reviewers: " +:+ e));;
        mret false
    end.

Definition run (self : ReviewerAssigner) (pr_number : Z) : Py bool :=
  current_reviewers ← get_pr_reviewers self pr_number;
  reviewer_pool ← get_reviewer_pool self;
  if bool_decide (reviewer_pool = []) then
    emit (Log ERROR "No reviewers available in pool");;
    mret false
  else
    sprint_reviewer ← lift (getitem reviewer_pool 0);
    if bool_decide (sprint_reviewer ∈ current_reviewers) then mret true
    else
      let reviewers_to_assign := [sprint_reviewer] in
      assign_reviewers self pr_number reviewers_to_assign.

(** [main()] after argument parsing: [--pr-number], [--repo],
    [--test-mode]. *)
Definition main (pr_number : Z) (repo : string) (test_mode : bool) : Py unit :=
  match GITHUB_TOKEN env with
  | None | Some "" =>
      emit (Log ERROR "GITHUB_TOKEN environment variable not set");;
      raise (SystemExit 1)
  | Some token =>
      assigner ← init repo token test_mode;
      success ← run assigner pr_number;
      if negb success then raise (SystemExit 1) else mret tt
  end.

End Process.

(** The exit status of the process running [main]: 0 when [main]
    returns, the code of [sys.exit], and 1 for a traceback. *)
Definition exit_status (m : Py unit) : Z :=
  match result m with
  | Return _ => 0
  | Raise (SystemExit code) => code
  | Raise _ => 1
  end.

(** The same process at another time. *)
Definition at_time (env : Env) (t : datetime) : Env :=
  {| config_json := config_json env;
     maintainers_md := maintainers_md env;
     now := t;
     set_order := set_order env;
     requested_reviewers := requested_reviewers env;
     request_reviewers := request_reviewers env;
     GITHUB_TOKEN := GITHUB_TOKEN env |}.

(** The same process with another configuration file. *)
Definition with_config (env : Env) (c : file_read SprintConfig) : Env :=
  {| config_json := c;
     maintainers_md := maintainers_md env;
     now := now env;
     set_order := set_order env;
     requested_reviewers := requested_reviewers env;
     request_reviewers := request_reviewers env;
     GITHUB_TOKEN := GITHUB_TOKEN env |}.

End Script.
Import Script.

(* ===================================================================== *)
(** ** The specification's functions                                      *)
(* ===================================================================== *)

Module Spec.

(** [sprintNumber(now, epoch, weeksPerSprint)]:
    [floor((now − epoch) in days / (weeksPerSprint * 7)) + 1].  Times
    are in microseconds, so the elapsed time in days is the rational
    [(now − epoch) / US_PER_DAY] and the floor of its quotient by the
    sprint length is the integer quotient below. *)
Definition sprintNumber (now epoch : datetime) (weeksPerSprint : Z) : Z :=
  (now - epoch) / (US_PER_DAY * (weeksPerSprint * 7)) + 1.

(** [offset = (sprintNumber − 1) mod |maintainers|] *)
Definition offset (maintainers : list string) (sprintNumber : Z) : nat :=
  Z.to_nat ((sprintNumber - 1) mod len maintainers).

(** [rotated = maintainers[offset:] ++ maintainers[:offset]] *)
Definition rotated (maintainers : list string) (sprintNumber : Z) : list string :=
  drop (offset maintainers sprintNumber) maintainers
  ++ take (offset maintainers sprintNumber) maintainers.

(** [reviewerPool(maintainers, sprintNumber, poolSize)]: empty for no
    maintainers, else the first [min(poolSize, |maintainers|)]
    elements of [rotated]. *)
Definition reviewerPool (maintainers : list string) (sprintNumber poolSize : Z)
  : list string :=
  match maintainers with
  | [] => []
  | _ => take (Z.to_nat (Z.min poolSize (len maintainers)))
           (rotated maintainers sprintNumber)
  end.

Inductive Action : Type :=
| NoReviewersAvailable
| NoOp
| AssignOne (reviewer : string).

(** [decide(pool, currentReviewers)] *)
Definition decide (pool : list string) (currentReviewers : gset string) : Action :=
  match pool with
  | [] => NoReviewersAvailable
  | primary :: _ =>
      if bool_decide (primary ∈ currentReviewers) then NoOp else AssignOne primary
  end.

End Spec.

(* ===================================================================== *)
(** ** The reconciliation driver, seen from the specification             *)
(* ===================================================================== *)

Module Driver.

(** The action [Spec.decide] selects, carried out with the script's
    means: what [run] does after its two reads. *)
Definition execute (env : Env) (self : ReviewerAssigner) (pr_number : Z)
    (a : Spec.Action) : Py bool :=
  match a with
  | Spec.NoReviewersAvailable =>
      emit (Log ERROR "No reviewers available in pool");;
      mret false
  | Spec.NoOp => mret true
  | Spec.AssignOne reviewer => assign_reviewers env self pr_number [reviewer]
  end.

(** The set [get_pr_reviewers] hands to [run]. *)
Definition observed (env : Env) (self : ReviewerAssigner) (pr : Z) : gset string :=
  match requested_reviewers env (repo self) pr with
  | Response (Some users) => list_to_set users
  | _ => ∅
  end.

(** The configuration a process ends up with: [load_config]'s value. *)
Definition loaded_config (env : Env) : SprintConfig :=
  match config_json env with
  | Contents c => c
  | _ => default_config
  end.

(** The same process, for which the service reports [R] as the requested
    reviewers of every pull request. *)
Definition observing (env : Env) (R : gset string) : Env :=
  {| config_json := config_json env;
     maintainers_md := maintainers_md env;
     now := now env;
     set_order := set_order env;
     requested_reviewers := fun _ _ => Response (Some (elements R));
     request_reviewers := request_reviewers env;
     GITHUB_TOKEN := GITHUB_TOKEN env |}.

(** The requested reviewers of the pull request after a run that emitted
    [w], when they were [R] before: the code-hosting service adds the
    reviewers of each write request it answered with success, and
    nothing else touches the set (the script has no request that removes
    reviewers). *)
Definition service_after (env : Env) (R : gset string) (w : list event) : gset string :=
  foldl (fun R e =>
           match e with
           | HttpPost repo pr reviewers =>
               match request_reviewers env repo pr reviewers with
               | Response _ => R ∪ list_to_set reviewers
               | RequestException _ => R
               end
           | _ => R
           end) R w.

(** The write requests of [n] successive runs on one pull request whose
    requested reviewers are [R] before the first. *)
Fixpoint reruns (n : nat) (env : Env) (self : ReviewerAssigner) (pr_number : Z)
    (R : gset string) : list (list string) :=
  match n with
  | O => []
  | S n' =>
      let m := run (observing env R) self pr_number in
      posts (events m) ++ reruns n' env self pr_number (service_after env R (events m))
  end.

(** The same process, whose read of the requested reviewers is answered
    with [reply] for every pull request. *)
Definition answering (env : Env) (reply : http (option (list string))) : Env :=
  {| config_json := config_json env;
     maintainers_md := maintainers_md env;
     now := now env;
     set_order := set_order env;
     requested_reviewers := fun _ _ => reply;
     request_reviewers := request_reviewers env;
     GITHUB_TOKEN := GITHUB_TOKEN env |}.

(** The repository and pull request an event addresses, for the two
    requests. *)
Definition target (e : event) : option (string * Z) :=
  match e with
  | HttpGet r p | HttpPost r p _ => Some (r, p)
  | Log _ _ => None
  end.

(** The same process, reading another maintainers document. *)
Definition with_maintainers (env : Env) (content : string) : Env :=
  {| config_json := config_json env;
     maintainers_md := Contents content;
     now := now env;
     set_order := set_order env;
     requested_reviewers := requested_reviewers env;
     request_reviewers := request_reviewers env;
     GITHUB_TOKEN := GITHUB_TOKEN env |}.

(** The same process with another value of [GITHUB_TOKEN]. *)
Definition with_token (env : Env) (t : option string) : Env :=
  {| config_json := config_json env;
     maintainers_md := maintainers_md env;
     now := now env;
     set_order := set_order env;
     requested_reviewers := requested_reviewers env;
     request_reviewers := request_reviewers env;
     GITHUB_TOKEN := t |}.

(** The read requests among some events. *)
Definition gets (w : list event) : list (string * Z) :=
  omap (fun e => match e with HttpGet r p => Some (r, p) | _ => None end) w.

(** The length of a sprint, in microseconds. *)
Definition SPRINT : Z := SPRINT_WEEKS * 7 * US_PER_DAY.

End Driver.
Import Driver.

(* ===================================================================== *)
(** ** Concrete processes                                                 *)
(* ===================================================================== *)

Module Scenario.

(** An interpreter process whose sets iterate over the inserted strings
    in the order of their insertion, a string inserted more than once
    standing at its last insertion ([remove_dups]), and one whose sets
    iterate the other way round. *)
Definition first_seen (ins : list string) : list string := remove_dups ins.
Definition last_seen (ins : list string) : list string := reverse (remove_dups ins).

Definition epoch : datetime := mk_datetime 2024 1 1.
Definition day : Z := US_PER_DAY.

(** A repository with three maintainers, on the given date, whose
    pull requests have the given requested reviewers. *)
Definition team (t : datetime) (current : list string) : Env :=
  {| config_json := FileNotFoundError;
     maintainers_md := Contents "# Maintainers: @alice, @bob, @carol";
     now := t;
     set_order := first_seen;
     requested_reviewers := fun _ _ => Response (Some current);
     request_reviewers := fun _ _ _ => Response tt;
     GITHUB_TOKEN := Some "ghp_x" |}.

(** The same repository when the service cannot be read (expired
    token, network down) but the write goes through. *)
Definition unreadable : Env :=
  {| config_json := FileNotFoundError;
     maintainers_md := Contents "# Maintainers: @alice, @bob, @carol";
     now := epoch;
     set_order := first_seen;
     requested_reviewers := fun _ _ => RequestException "503 Server Error";
     request_reviewers := fun _ _ _ => Response tt;
     GITHUB_TOKEN := Some "ghp_x" |}.

(** Two processes reading one document of two maintainers, whose sets
    iterate in different orders. *)
Definition pair (order : list string -> list string) : Env :=
  {| config_json := FileNotFoundError;
     maintainers_md := Contents "@alice @bob";
     now := epoch;
     set_order := order;
     requested_reviewers := fun _ _ => Response (Some []);
     request_reviewers := fun _ _ _ => Response tt;
     GITHUB_TOKEN := Some "ghp_x" |}.

(** A repository without a maintainers document. *)
Definition orphan : Env :=
  {| config_json := FileNotFoundError;
     maintainers_md := FileNotFoundError;
     now := epoch;
     set_order := first_seen;
     requested_reviewers := fun _ _ => Response (Some []);
     request_reviewers := fun _ _ _ => Response tt;
     GITHUB_TOKEN := Some "ghp_x" |}.

Definition assigner (cfg : SprintConfig) (dry : bool) : ReviewerAssigner :=
  {| repo := "bootc-dev/ci-sandbox"; token := "ghp_x"; test_mode := dry; config := cfg |}.

Definition bot : ReviewerAssigner := assigner default_config false.

(** The team during the second sprint, with no reviewer requested and
    with an outsider requested; one week after the epoch; a hundred days
    before the epoch. *)
Definition sprint2 : Env := team (epoch + 21 * day) [].
Definition sprint2_dave : Env := team (epoch + 21 * day) ["dave"].
Definition week2 : Env := team (epoch + 7 * day) [].
Definition early : Env := team (epoch - 100 * day) [].

(** An assigner configured for one-week sprints. *)
(** The team's repository when the write is refused. *)
Definition refused : Env :=
  {| config_json := FileNotFoundError;
     maintainers_md := Contents "# Maintainers: @alice, @bob, @carol";
     now := epoch;
     set_order := first_seen;
     requested_reviewers := fun _ _ => Response (Some ["dave"]);
     request_reviewers := fun _ _ _ => RequestException "422 Unprocessable Entity";
     GITHUB_TOKEN := Some "ghp_x" |}.

(** A one-person team. *)
Definition solo : Env :=
  {| config_json := FileNotFoundError;
     maintainers_md := Contents "Maintainer: @alice";
     now := epoch + 100 * day;
     set_order := first_seen;
     requested_reviewers := fun _ _ => Response (Some []);
     request_reviewers := fun _ _ _ => Response tt;
     GITHUB_TOKEN := Some "ghp_x" |}.

Definition weekly : ReviewerAssigner :=
  assigner {| weeks_per_sprint := 1; reviewers_per_pr := 2; pool_size := 3 |} false.

(** Two configurations with the same pool size. *)
Definition config1 : SprintConfig :=
  {| weeks_per_sprint := 1; reviewers_per_pr := 5; pool_size := 2 |}.
Definition config2 : SprintConfig :=
  {| weeks_per_sprint := 3; reviewers_per_pr := 2; pool_size := 2 |}.

End Scenario.


(* ===================================================================== *)
(** ** Worked examples                                                    *)
(* ===================================================================== *)

Example ymd2ord_epoch : ymd2ord 2024 1 1 = 738886.
Proof. reflexivity. Qed.

Example findall_at_ex :
  findall_at "# Maintainers: @alice, @bob-2 (see @@carol_x) a@ b" = ["alice"; "bob-2"; "carol_x"].
Proof. vm_compute. reflexivity. Qed.

Example findall_link_ex :
  findall_link "- [dave](https://github.com/dave) [x](http://y) [e-1](https://github.com/e1)z"
  = ["dave"; "e-1"].
Proof. vm_compute. reflexivity. Qed.

(** Scenarios A, B and C of the specification. *)
Example scenario_A :
  result (get_reviewer_pool (Scenario.team Scenario.epoch []) Scenario.bot)
  = Return ["alice"; "bob"; "carol"].
Proof. vm_compute. reflexivity. Qed.

Example scenario_B :
  result (get_reviewer_pool (Scenario.team (Scenario.epoch + 21 * Scenario.day) []) Scenario.bot)
  = Return ["bob"; "carol"; "alice"].
Proof. vm_compute. reflexivity. Qed.

Example scenario_C :
  result (get_reviewer_pool (Scenario.team (Scenario.epoch + 63 * Scenario.day) []) Scenario.bot)
  = Return ["alice"; "bob"; "carol"].
Proof. vm_compute. reflexivity. Qed.

(** Scenarios D and E: the whole run. *)
Example scenario_D :
  run (Scenario.team (Scenario.epoch + 21 * Scenario.day) ["bob"]) Scenario.bot 7
  = (Return true, [HttpGet "bootc-dev/ci-sandbox" 7]).
Proof. vm_compute. reflexivity. Qed.

Example scenario_E :
  run (Scenario.team (Scenario.epoch + 21 * Scenario.day) ["dave"]) Scenario.bot 7
  = (Return true, [HttpGet "bootc-dev/ci-sandbox" 7;
                   HttpPost "bootc-dev/ci-sandbox" 7 ["bob"]]).
Proof. vm_compute. reflexivity. Qed.

(** A negative [pool_size] is not a size: the slice [rotated[:-1]]
    drops the last element instead. *)
Example negative_pool_size :
  result (get_reviewer_pool (Scenario.team Scenario.epoch [])
            (Scenario.assigner {| weeks_per_sprint := 3; reviewers_per_pr := 2; pool_size := -1 |} false))
  = Return ["alice"; "bob"].
Proof. vm_compute. reflexivity. Qed.

(* ===================================================================== *)
(** ** The writer monad                                                   *)
(* ===================================================================== *)

Section Monad.
Context {A B : Type}.

Lemma bind_Return (a : A) (w : list event) (f : A -> Py B) :
  mbind f ((Return a, w) : Py A)
  = (result (f a), w ++ events (f a)).
Proof. unfold mbind, Py_bind, result, events. by destruct (f a). Qed.

Lemma bind_Raise (e : exn) (w : list event) (f : A -> Py B) :
  mbind f ((Raise e, w) : Py A) = (Raise e, w).
Proof. reflexivity. Qed.

Lemma bind_mret (a : A) (f : A -> Py B) : mbind f (mret a) = f a.
Proof. unfold mret, Py_ret. rewrite bind_Return. by destruct (f a). Qed.

(** A program that returns [a]: the continuation runs, after its events. *)
Lemma bind_returns (m : Py A) (a : A) (f : A -> Py B) :
  result m = Return a ->
  mbind f m = (result (f a), events m ++ events (f a)).
Proof. destruct m as [r w]; simpl; intros ->. apply bind_Return. Qed.

Lemma pair_result_events (m : Py A) : m = (result m, events m).
Proof. by destruct m. Qed.
End Monad.

Lemma bind_emit {B} (e : event) (k : Py B) :
  (emit e;; k) = (result k, e :: events k).
Proof. unfold emit. by rewrite bind_Return. Qed.

Lemma posts_app (w1 w2 : list event) : posts (w1 ++ w2) = posts w1 ++ posts w2.
Proof. apply omap_app. Qed.

(* ===================================================================== *)
(** ** Rotation engine: the sprint number                                 *)
(* ===================================================================== *)

Lemma US_PER_DAY_pos : 0 < US_PER_DAY.
Proof. reflexivity. Qed.

(** The method never raises and emits nothing; its value is the floored
    quotient of the floored day count by 21, plus one. *)
Lemma get_current_sprint_number_eq (env : Env) (self : ReviewerAssigner) :
  get_current_sprint_number env self
  = mret ((now env - mk_datetime 2024 1 1) / US_PER_DAY / (SPRINT_WEEKS * 7) + 1).
Proof. reflexivity. Qed.

(** Flooring to whole days first and to sprints second is flooring once. *)
Lemma days_then_sprints (d : timedelta) (w : Z) :
  0 < w -> days d / (w * 7) = d / (US_PER_DAY * (w * 7)).
Proof.
  intros Hw. unfold days. apply Z.div_div; [|lia].
  pose proof US_PER_DAY_pos. lia.
Qed.

Lemma sprint_number_spec (env : Env) (self : ReviewerAssigner) :
  get_current_sprint_number env self
  = mret (Spec.sprintNumber (now env) (mk_datetime 2024 1 1) SPRINT_WEEKS).
Proof.
  rewrite get_current_sprint_number_eq. unfold Spec.sprintNumber.
  f_equal. f_equal.
  change ((now env - mk_datetime 2024 1 1) / US_PER_DAY)
    with (days (now env - mk_datetime 2024 1 1)).
  apply days_then_sprints. reflexivity.
Qed.

Lemma sprintNumber_mono (t1 t2 epoch w : Z) :
  0 < w -> t1 <= t2 -> Spec.sprintNumber t1 epoch w <= Spec.sprintNumber t2 epoch w.
Proof.
  intros Hw Ht. unfold Spec.sprintNumber.
  pose proof US_PER_DAY_pos.
  assert (t1 - epoch <= t2 - epoch) as Hd by lia.
  apply (Z.div_le_mono _ _ (US_PER_DAY * (w * 7))) in Hd; lia.
Qed.

Lemma sprintNumber_step (t epoch w : Z) :
  0 < w ->
  Spec.sprintNumber (t + w * 7 * US_PER_DAY) epoch w = Spec.sprintNumber t epoch w + 1.
Proof.
  intros Hw. unfold Spec.sprintNumber.
  pose proof US_PER_DAY_pos.
  replace (t + w * 7 * US_PER_DAY - epoch)
    with ((t - epoch) + 1 * (US_PER_DAY * (w * 7))) by lia.
  rewrite Z.div_add by lia. lia.
Qed.

Lemma sprintNumber_before_epoch (t epoch w : Z) :
  0 < w -> t < epoch -> Spec.sprintNumber t epoch w <= 0.
Proof.
  intros Hw Ht. unfold Spec.sprintNumber.
  pose proof US_PER_DAY_pos.
  assert ((t - epoch) / (US_PER_DAY * (w * 7)) < 0); [|lia].
  apply Z.div_lt_upper_bound; lia.
Qed.




(* ===================================================================== *)
(** ** Rotation engine: the reviewer pool                                 *)
(* ===================================================================== *)

Lemma len_nonneg {A} (l : list A) : 0 <= len l.
Proof. unfold len. lia. Qed.

Lemma len_pos {A} (l : list A) : l <> [] -> 0 < len l.
Proof. destruct l; [done|]. unfold len; simpl; lia. Qed.

(** A bound within [0 .. n] is used as it is. *)
Lemma slice_index_in_range (n i : Z) : 0 <= i <= n -> slice_index n i = Z.to_nat i.
Proof.
  intros Hi. unfold slice_index.
  destruct (Z.ltb_spec i 0); [lia|]. f_equal. lia.
Qed.

Lemma get_maintainers_returns (env : Env) (self : ReviewerAssigner) :
  exists M, result (get_maintainers env self) = Return M.
Proof.
  unfold get_maintainers. destruct (maintainers_md env); eauto.
Qed.

Lemma get_maintainers_no_posts (env : Env) (self : ReviewerAssigner) :
  posts (events (get_maintainers env self)) = [].
Proof.
  unfold get_maintainers. by destruct (maintainers_md env).
Qed.

(** The start index of the rotation: [%] does not raise for a non-empty
    list and lands inside it. *)
Lemma start_index_in_range (M : list string) (s : Z) :
  M <> [] ->
  py_mod (s - 1) (len M) = Return ((s - 1) mod len M)
  /\ 0 <= (s - 1) mod len M < len M.
Proof.
  intros HM. pose proof (len_pos M HM) as Hlen. split.
  - unfold py_mod. destruct (Z.eqb_spec (len M) 0); [lia|done].
  - by apply Z.mod_pos_bound.
Qed.

Lemma rotated_length (M : list string) (o : Z) :
  len (slice_from M o ++ slice_to M o) = len M.
Proof.
  unfold len, slice_from, slice_to.
  rewrite length_app, length_drop, length_take. lia.
Qed.

(** The pool of a non-empty maintainer list, as the method computes it:
    Python slices at the start index, then a slice at the clamped size. *)
Lemma get_reviewer_pool_nonempty (env : Env) (self : ReviewerAssigner)
    (M : list string) (s : Z) :
  result (get_maintainers env self) = Return M ->
  M <> [] ->
  result (get_current_sprint_number env self) = Return s ->
  let o := (s - 1) mod len M in
  get_reviewer_pool env self
  = (Return (slice_to (slice_from M o ++ slice_to M o)
               (Z.min (pool_size (config self)) (len M))),
     events (get_maintainers env self)).
Proof.
  intros HM Hne Hs o. unfold get_reviewer_pool.
  rewrite (bind_returns _ M) by done.
  rewrite bool_decide_eq_false_2 by done.
  rewrite (bind_returns _ s) by done.
  rewrite get_current_sprint_number_eq. cbn [events mret Py_ret snd].
  destruct (start_index_in_range M s Hne) as [-> _].
  unfold lift. rewrite bind_Return. cbn [result events mret Py_ret fst snd].
  rewrite rotated_length. by rewrite !app_nil_r.
Qed.

Lemma get_reviewer_pool_empty (env : Env) (self : ReviewerAssigner) :
  result (get_maintainers env self) = Return [] ->
  get_reviewer_pool env self = (Return [], events (get_maintainers env self)).
Proof.
  intros HM. unfold get_reviewer_pool.
  rewrite (bind_returns _ []) by done.
  rewrite bool_decide_eq_true_2 by done.
  cbn [result events mret Py_ret fst snd]. by rewrite app_nil_r.
Qed.

(** The Python slices of the method are the [drop] and [take] of the
    specification. *)
Lemma slices_are_rotation (M : list string) (s : Z) :
  M <> [] ->
  let o := (s - 1) mod len M in
  slice_from M o ++ slice_to M o = Spec.rotated M s.
Proof.
  intros Hne o. destruct (start_index_in_range M s Hne) as [_ Ho].
  unfold slice_from, slice_to, Spec.rotated, Spec.offset.
  rewrite slice_index_in_range by (fold o; lia). done.
Qed.

Lemma get_reviewer_pool_returns (env : Env) (self : ReviewerAssigner) :
  exists pool, result (get_reviewer_pool env self) = Return pool.
Proof.
  destruct (get_maintainers_returns env self) as [M HM].
  destruct (decide (M = [])) as [->|Hne].
  - rewrite get_reviewer_pool_empty by done. eauto.
  - erewrite get_reviewer_pool_nonempty; [| done | done | by rewrite get_current_sprint_number_eq].
    eauto.
Qed.

Lemma get_reviewer_pool_no_posts (env : Env) (self : ReviewerAssigner) :
  posts (events (get_reviewer_pool env self)) = [].
Proof.
  destruct (get_maintainers_returns env self) as [M HM].
  destruct (decide (M = [])) as [->|Hne].
  - rewrite get_reviewer_pool_empty by done. apply get_maintainers_no_posts.
  - erewrite get_reviewer_pool_nonempty; [| done | done | by rewrite get_current_sprint_number_eq].
    apply get_maintainers_no_posts.
Qed.

(** Every integer, positive or not, is the sprint number at some time:
    the statements below that speak of the sprint number a process
    computes cover every integer. *)
Lemma every_sprint_number_occurs (env : Env) (self : ReviewerAssigner) (s : Z) :
  result (get_current_sprint_number
            (at_time env (mk_datetime 2024 1 1 + (s - 1) * (SPRINT_WEEKS * 7 * US_PER_DAY))) self)
  = Return s.
Proof.
  rewrite sprint_number_spec. cbn [result mret Py_ret fst now at_time].
  f_equal. unfold Spec.sprintNumber.
  replace (mk_datetime 2024 1 1 + (s - 1) * (SPRINT_WEEKS * 7 * US_PER_DAY) - mk_datetime 2024 1 1)
    with ((s - 1) * (US_PER_DAY * (SPRINT_WEEKS * 7))) by lia.
  rewrite Z.div_mul; [lia|done].
Qed.

Lemma reviewerPool_length (M : list string) (s k : Z) :
  0 <= k -> len (Spec.reviewerPool M s k) = Z.min k (len M).
Proof.
  intros Hk. destruct M as [|m M']; [unfold len; simpl; lia|].
  unfold Spec.reviewerPool, Spec.rotated.
  set (M := m :: M'). set (o := Spec.offset M s).
  unfold len at 1. rewrite length_take, length_app, length_drop, length_take.
  pose proof (len_nonneg M). unfold len in *. lia.
Qed.

(** C1.  Whatever maintainer list [M] the process extracted and
    whatever sprint number [s] it computed: for no maintainers
    [get_reviewer_pool] returns the empty list; otherwise it returns [M]
    rotated left by [(s - 1) mod |M|], cut by the slice
    [rotated[:min(k, |M|)]] for the configured pool size [k]; and for
    every size [k >= 0] that is the specification's [reviewerPool], the
    first [min(k, |M|)] elements of the rotation, which has exactly
    that many elements. *)
Theorem get_reviewer_pool_is_reviewerPool
    (env : Env) (self : ReviewerAssigner) (M : list string) (s : Z) :
  result (get_maintainers env self) = Return M ->
  result (get_current_sprint_number env self) = Return s ->
  (M = [] -> result (get_reviewer_pool env self) = Return [])
  /\ (M <> [] ->
      result (get_reviewer_pool env self)
      = Return (slice_to (Spec.rotated M s) (Z.min (pool_size (config self)) (len M))))
  /\ (0 <= pool_size (config self) ->
      result (get_reviewer_pool env self)
      = Return (Spec.reviewerPool M s (pool_size (config self)))
      /\ len (Spec.reviewerPool M s (pool_size (config self)))
         = Z.min (pool_size (config self)) (len M)).
Proof.
  intros HM Hs.
  assert (M <> [] ->
          result (get_reviewer_pool env self)
          = Return (slice_to (Spec.rotated M s) (Z.min (pool_size (config self)) (len M))))
    as Hrot.
  { intros Hne. rewrite (get_reviewer_pool_nonempty env self M s) by done.
    cbn [result fst]. by rewrite slices_are_rotation. }
  split; [|split; [done|]].
  - intros ->. by rewrite get_reviewer_pool_empty.
  - intros Hk. split; [|by apply reviewerPool_length].
    destruct (decide (M = [])) as [->|Hne]; [by rewrite get_reviewer_pool_empty|].
    rewrite (Hrot Hne). f_equal. unfold slice_to.
    replace (len (Spec.rotated M s)) with (len M)
      by (by rewrite <- (slices_are_rotation M s Hne), rotated_length).
    rewrite slice_index_in_range by (pose proof (len_nonneg M); lia).
    unfold Spec.reviewerPool. by destruct M.
Qed.

Lemma get_reviewer_pool_is_reviewerPool_witness :
  result (get_reviewer_pool Scenario.sprint2 Scenario.bot)
  = Return (Spec.reviewerPool ["alice"; "bob"; "carol"] 2 3)
  /\ len (Spec.reviewerPool ["alice"; "bob"; "carol"] 2 3) = Z.min 3 3
  /\ result (get_reviewer_pool Scenario.orphan Scenario.bot) = Return [].
Proof.
  destruct (get_reviewer_pool_is_reviewerPool Scenario.sprint2 Scenario.bot
              ["alice"; "bob"; "carol"] 2) as (_ & _ & Hsize).
  - vm_compute. reflexivity.
  - vm_compute. reflexivity.
  - destruct (get_reviewer_pool_is_reviewerPool Scenario.orphan Scenario.bot [] 1)
      as (Hempty & _ & _).
    + vm_compute. reflexivity.
    + vm_compute. reflexivity.
    + destruct Hsize as [Hpool Hlen]; [vm_compute; discriminate|].
      split; [exact Hpool|]. split; [exact Hlen|]. by apply Hempty.
Defined.



(** C9.  Two processes that extracted the same maintainer list [M]
    (empty or not) and whose sprint numbers are [s] and [s + |M|]
    compute the same pool, for every configured pool size. *)
Theorem reviewer_pool_periodic
    (env1 env2 : Env) (self : ReviewerAssigner) (M : list string) (s : Z) :
  result (get_maintainers env1 self) = Return M ->
  result (get_maintainers env2 self) = Return M ->
  result (get_current_sprint_number env1 self) = Return s ->
  result (get_current_sprint_number env2 self) = Return (s + len M) ->
  result (get_reviewer_pool env1 self) = result (get_reviewer_pool env2 self).
Proof.
  intros HM1 HM2 Hs1 Hs2.
  destruct (decide (M = [])) as [->|Hne].
  - by rewrite !get_reviewer_pool_empty.
  - rewrite (get_reviewer_pool_nonempty env1 self M s) by done.
    rewrite (get_reviewer_pool_nonempty env2 self M (s + len M)) by done.
    cbn [result fst].
    replace (s + len M - 1) with (s - 1 + 1 * len M) by lia.
    by rewrite Z_mod_plus_full.
Qed.

Lemma reviewer_pool_periodic_witness :
  result (get_reviewer_pool (Scenario.team Scenario.epoch []) Scenario.bot)
  = result (get_reviewer_pool (Scenario.team (Scenario.epoch + 63 * Scenario.day) []) Scenario.bot).
Proof.
  apply (reviewer_pool_periodic _ _ Scenario.bot ["alice"; "bob"; "carol"] 1);
    vm_compute; reflexivity.
Defined.

(** C3 as stated fails: C3 takes the sprint length from the
    configuration.  One week after the epoch, with a configuration of
    one-week sprints, the method answers sprint 1 where the formula
    over the configured length gives sprint 2. *)
Lemma sprint_number_ignores_configured_length :
  weeks_per_sprint (config Scenario.weekly) = 1
  /\ result (get_current_sprint_number Scenario.week2 Scenario.weekly) = Return 1
  /\ Spec.sprintNumber (now Scenario.week2) (get_sprint_start_date Scenario.weekly)
       (weeks_per_sprint (config Scenario.weekly)) = 2
  /\ result (get_current_sprint_number Scenario.week2 Scenario.weekly)
     <> Return (Spec.sprintNumber (now Scenario.week2) (get_sprint_start_date Scenario.weekly)
                  (weeks_per_sprint (config Scenario.weekly))).
Proof. vm_compute. split; [done|]. split; [done|]. split; [done|]. discriminate. Qed.

(** C3, amended.  For every current time, [get_current_sprint_number]
    returns [floor((now - epoch) in days / (SPRINT_WEEKS * 7)) + 1],
    where the epoch is 2024-01-01 and the sprint length is the module
    constant [SPRINT_WEEKS = 3], not the loaded configuration; before
    the epoch the result is [<= 0], not an error. *)
Theorem sprint_number_formula (env : Env) (self : ReviewerAssigner) :
  get_current_sprint_number env self
  = mret (Spec.sprintNumber (now env) (get_sprint_start_date self) SPRINT_WEEKS)
  /\ get_sprint_start_date self = mk_datetime 2024 1 1
  /\ SPRINT_WEEKS = 3
  /\ (now env < get_sprint_start_date self ->
      Spec.sprintNumber (now env) (get_sprint_start_date self) SPRINT_WEEKS <= 0).
Proof.
  split; [apply sprint_number_spec|]. split; [done|]. split; [done|].
  by apply sprintNumber_before_epoch.
Qed.

Lemma sprint_number_formula_witness :
  result (get_current_sprint_number Scenario.early Scenario.bot) = Return (-4)
  /\ Spec.sprintNumber (now Scenario.early) (get_sprint_start_date Scenario.bot) SPRINT_WEEKS
     <= 0.
Proof.
  split; [vm_compute; reflexivity|].
  apply (sprint_number_formula Scenario.early Scenario.bot). vm_compute. reflexivity.
Defined.

(** C8 as stated fails in its second half: C8 steps by the configured
    sprint length.  With a configuration of one-week sprints the sprint
    number is 1 at the epoch and still 1, not 2, [weeks_per_sprint * 7]
    days later. *)
Lemma sprint_step_ignores_configured_length :
  weeks_per_sprint (config Scenario.weekly) = 1
  /\ result (get_current_sprint_number (at_time Scenario.week2 Scenario.epoch) Scenario.weekly)
     = Return 1
  /\ result (get_current_sprint_number
               (at_time Scenario.week2
                  (Scenario.epoch + weeks_per_sprint (config Scenario.weekly) * 7 * US_PER_DAY))
               Scenario.weekly)
     = Return 1
  /\ result (get_current_sprint_number
               (at_time Scenario.week2
                  (Scenario.epoch + weeks_per_sprint (config Scenario.weekly) * 7 * US_PER_DAY))
               Scenario.weekly)
     <> Return (1 + 1).
Proof. vm_compute. split; [done|]. split; [done|]. split; [done|]. discriminate. Qed.

(** C8, amended.  From the epoch on, a later time never has a smaller
    sprint number, and [SPRINT_WEEKS * 7] = 21 days later, the
    hard-coded sprint length whatever the configuration says, the
    sprint number is exactly one more. *)
Theorem sprint_number_monotone
    (env : Env) (self : ReviewerAssigner) (now1 now2 : datetime) :
  get_sprint_start_date self <= now1 ->
  now1 <= now2 ->
  exists s1 s2 : Z,
    result (get_current_sprint_number (at_time env now1) self) = Return s1
    /\ result (get_current_sprint_number (at_time env now2) self) = Return s2
    /\ s1 <= s2
    /\ result (get_current_sprint_number
                 (at_time env (now1 + SPRINT_WEEKS * 7 * US_PER_DAY)) self)
       = Return (s1 + 1).
Proof.
  intros _ Hle. rewrite !sprint_number_spec. cbn [result mret Py_ret fst now at_time].
  do 2 eexists. split; [done|]. split; [done|]. split.
  - by apply sprintNumber_mono.
  - f_equal. by apply sprintNumber_step.
Qed.

Lemma sprint_number_monotone_witness :
  exists s1 s2 : Z,
    result (get_current_sprint_number
              (at_time Scenario.sprint2 (Scenario.epoch + 5 * Scenario.day)) Scenario.bot)
    = Return s1
    /\ result (get_current_sprint_number
                 (at_time Scenario.sprint2 (Scenario.epoch + 30 * Scenario.day)) Scenario.bot)
       = Return s2
    /\ s1 <= s2
    /\ result (get_current_sprint_number
                 (at_time Scenario.sprint2
                    (Scenario.epoch + 5 * Scenario.day + SPRINT_WEEKS * 7 * US_PER_DAY))
                 Scenario.bot)
       = Return (s1 + 1).
Proof.
  apply (sprint_number_monotone Scenario.sprint2 Scenario.bot
           (Scenario.epoch + 5 * Scenario.day) (Scenario.epoch + 30 * Scenario.day)).
  - vm_compute. discriminate.
  - vm_compute. discriminate.
Defined.

(* ===================================================================== *)
(** ** Reconciliation driver                                              *)
(* ===================================================================== *)

Lemma get_pr_reviewers_returns (env : Env) (self : ReviewerAssigner) (pr : Z) :
  result (get_pr_reviewers env self pr) = Return (observed env self pr).
Proof.
  unfold get_pr_reviewers, observed. rewrite bind_emit.
  by destruct (requested_reviewers env (repo self) pr) as [e|[users|]].
Qed.

Lemma get_pr_reviewers_no_posts (env : Env) (self : ReviewerAssigner) (pr : Z) :
  posts (events (get_pr_reviewers env self pr)) = [].
Proof.
  unfold get_pr_reviewers. rewrite bind_emit.
  by destruct (requested_reviewers env (repo self) pr) as [e|[users|]].
Qed.

(** One reviewer to assign: nothing is sent in test mode, otherwise
    exactly one write request, for that reviewer alone. *)
Lemma assign_one_posts (env : Env) (self : ReviewerAssigner) (pr : Z) (r : string) :
  posts (events (assign_reviewers env self pr [r]))
  = if test_mode self then [] else [[r]].
Proof.
  unfold assign_reviewers. rewrite bool_decide_eq_false_2 by done.
  destruct (test_mode self); [done|]. rewrite bind_emit.
  by destruct (request_reviewers env (repo self) pr [r]).
Qed.

Lemma assign_one_result (env : Env) (self : ReviewerAssigner) (pr : Z) (r : string) :
  result (assign_reviewers env self pr [r])
  = Return (if test_mode self then true
            else match request_reviewers env (repo self) pr [r] with
                 | Response _ => true
                 | RequestException _ => false
                 end).
Proof.
  unfold assign_reviewers. rewrite bool_decide_eq_false_2 by done.
  destruct (test_mode self); [done|]. rewrite bind_emit.
  by destruct (request_reviewers env (repo self) pr [r]).
Qed.

(** [run] is the two reads followed by the specification's decision. *)
Lemma run_refines_decide (env : Env) (self : ReviewerAssigner) (pr : Z) (pool : list string) :
  result (get_reviewer_pool env self) = Return pool ->
  run env self pr
  = (let m := execute env self pr (Spec.decide pool (observed env self pr)) in
     (result m,
      events (get_pr_reviewers env self pr)
      ++ events (get_reviewer_pool env self) ++ events m)).
Proof.
  intros Hpool. unfold run.
  rewrite (bind_returns _ _ _ (get_pr_reviewers_returns env self pr)).
  rewrite (bind_returns _ _ _ Hpool). cbn [result events fst snd].
  destruct pool as [|primary rest].
  - rewrite bool_decide_eq_true_2 by done. reflexivity.
  - rewrite bool_decide_eq_false_2 by done.
    unfold lift, getitem. cbn [lookup list_lookup]. rewrite bind_Return.
    cbn [app result events fst snd Spec.decide execute].
    by destruct (bool_decide (primary ∈ observed env self pr)).
Qed.

Lemma run_posts (env : Env) (self : ReviewerAssigner) (pr : Z) (pool : list string) :
  result (get_reviewer_pool env self) = Return pool ->
  posts (events (run env self pr))
  = posts (events (execute env self pr (Spec.decide pool (observed env self pr)))).
Proof.
  intros Hpool. rewrite (run_refines_decide env self pr pool Hpool).
  cbn [events snd]. rewrite !posts_app.
  by rewrite get_pr_reviewers_no_posts, get_reviewer_pool_no_posts.
Qed.

Lemma run_result (env : Env) (self : ReviewerAssigner) (pr : Z) (pool : list string) :
  result (get_reviewer_pool env self) = Return pool ->
  result (run env self pr)
  = result (execute env self pr (Spec.decide pool (observed env self pr))).
Proof. intros Hpool. by rewrite (run_refines_decide env self pr pool Hpool). Qed.

(** What a process observes does not enter its pool. *)
Lemma pool_observing (env : Env) (self : ReviewerAssigner) (R : gset string) :
  get_reviewer_pool (observing env R) self = get_reviewer_pool env self.
Proof. reflexivity. Qed.

Lemma observed_observing (env : Env) (self : ReviewerAssigner) (pr : Z) (R : gset string) :
  observed (observing env R) self pr = R.
Proof. unfold observed, observing; simpl. apply list_to_set_elements_L. Qed.

(** Once the primary reviewer is among the requested reviewers, no run
    writes, however often the job is re-run. *)
Lemma reruns_satisfied (n : nat) (env : Env) (self : ReviewerAssigner) (pr : Z)
    (primary : string) (rest : list string) (R : gset string) :
  result (get_reviewer_pool env self) = Return (primary :: rest) ->
  primary ∈ R ->
  reruns n env self pr R = [].
Proof.
  intros Hpool. revert R. induction n as [|n IH]; intros R HR; [done|].
  cbn [reruns].
  assert (events (execute (observing env R) self pr
                    (Spec.decide (primary :: rest) (observed (observing env R) self pr))) = [])
    as Hex.
  { rewrite observed_observing. cbn [Spec.decide].
    by rewrite bool_decide_eq_true_2. }
  rewrite (run_refines_decide (observing env R) self pr (primary :: rest))
    by (by rewrite pool_observing).
  cbn [events snd]. rewrite Hex, app_nil_r.
  rewrite !posts_app, get_pr_reviewers_no_posts, get_reviewer_pool_no_posts.
  cbn [app].
  rewrite IH; [done|].
  assert (forall w R0, posts w = [] -> service_after env R0 w = R0) as Hkeep.
  { clear. induction w as [|e w IHw]; intros R0 Hw; [done|].
    destruct e; cbn in Hw; try discriminate; cbn; by apply IHw. }
  rewrite Hkeep; [done|].
  by rewrite posts_app, get_pr_reviewers_no_posts, get_reviewer_pool_no_posts.
Qed.

Lemma service_after_app (env : Env) (R : gset string) (w1 w2 : list event) :
  service_after env R (w1 ++ w2) = service_after env (service_after env R w1) w2.
Proof. unfold service_after. apply foldl_app. Qed.

Lemma service_after_no_posts (env : Env) (R : gset string) (w : list event) :
  posts w = [] -> service_after env R w = R.
Proof.
  revert R. induction w as [|e w IHw]; intros R Hw; [done|].
  destruct e; cbn in Hw; try discriminate; cbn; by apply IHw.
Qed.

(** A first run that has to assign and whose write succeeds is the only
    run that ever writes. *)
Lemma reruns_assign_once (n : nat) (env : Env) (self : ReviewerAssigner) (pr : Z)
    (primary : string) (rest : list string) (R : gset string) :
  result (get_reviewer_pool env self) = Return (primary :: rest) ->
  primary ∉ R ->
  test_mode self = false ->
  request_reviewers env (repo self) pr [primary] = Response tt ->
  reruns (S n) env self pr R = [[primary]].
Proof.
  intros Hpool HR Hlive Hpost. cbn [reruns].
  rewrite (run_refines_decide (observing env R) self pr (primary :: rest))
    by (by rewrite pool_observing).
  rewrite observed_observing. cbn [Spec.decide events snd].
  rewrite bool_decide_eq_false_2 by done. cbn [execute].
  rewrite !posts_app, get_pr_reviewers_no_posts, get_reviewer_pool_no_posts.
  rewrite assign_one_posts, Hlive. cbn [app]. f_equal.
  apply (reruns_satisfied n env self pr primary rest); [done|].
  rewrite !service_after_app.
  rewrite (service_after_no_posts env R (events (get_pr_reviewers _ _ _)))
    by apply get_pr_reviewers_no_posts.
  rewrite (service_after_no_posts env R (events (get_reviewer_pool _ _)))
    by apply get_reviewer_pool_no_posts.
  unfold assign_reviewers. rewrite bool_decide_eq_false_2 by done.
  rewrite Hlive, bind_emit. cbn [observing request_reviewers].
  rewrite Hpost. cbn. rewrite Hpost. set_solver.
Qed.

(** C2.  For a non-empty pool with first element [primary] and the
    current reviewer set [R] the run observed: if [primary] is in [R]
    the decision is [NoOp], the run succeeds and sends no write;
    otherwise the decision is [AssignOne primary] and the run is the
    assignment of the one-element list [[primary]] (one write request
    for exactly that reviewer, none in test mode).  The decision is
    idempotent: with [primary] added to the observed set it is [NoOp],
    and over any number of re-runs of the job nothing is written once
    [primary] is requested, so that a successful assignment is the only
    write there ever is. *)
Theorem run_decides_idempotently
    (env : Env) (self : ReviewerAssigner) (pr : Z)
    (primary : string) (rest : list string) (R : gset string) :
  result (get_reviewer_pool env self) = Return (primary :: rest) ->
  result (get_pr_reviewers env self pr) = Return R ->
  (primary ∈ R ->
     Spec.decide (primary :: rest) R = Spec.NoOp
     /\ result (run env self pr) = Return true
     /\ posts (events (run env self pr)) = [])
  /\ (primary ∉ R ->
     Spec.decide (primary :: rest) R = Spec.AssignOne primary
     /\ result (run env self pr) = result (assign_reviewers env self pr [primary])
     /\ posts (events (run env self pr)) = (if test_mode self then [] else [[primary]]))
  /\ Spec.decide (primary :: rest) (R ∪ {[primary]}) = Spec.NoOp
  /\ (forall (n : nat) (R' : gset string), primary ∈ R' -> reruns n env self pr R' = [])
  /\ (forall n : nat,
        primary ∉ R -> test_mode self = false ->
        request_reviewers env (repo self) pr [primary] = Response tt ->
        reruns (S n) env self pr R = [[primary]]).
Proof.
  intros Hpool HR.
  rewrite get_pr_reviewers_returns in HR. injection HR as HR.
  repeat split.
  - cbn. by rewrite bool_decide_eq_true_2.
  - rewrite (run_result env self pr _ Hpool), HR. cbn [Spec.decide].
    by rewrite bool_decide_eq_true_2.
  - rewrite (run_posts env self pr _ Hpool), HR. cbn [Spec.decide].
    by rewrite bool_decide_eq_true_2.
  - cbn. by rewrite bool_decide_eq_false_2.
  - rewrite (run_result env self pr _ Hpool), HR. cbn [Spec.decide].
    by rewrite bool_decide_eq_false_2.
  - rewrite (run_posts env self pr _ Hpool), HR. cbn [Spec.decide].
    rewrite bool_decide_eq_false_2 by done. apply assign_one_posts.
  - cbn. rewrite bool_decide_eq_true_2; [done|set_solver].
  - intros n R' HR'. by apply (reruns_satisfied n env self pr primary rest).
  - intros n Hnot Hlive Hpost. by apply (reruns_assign_once n env self pr primary rest).
Qed.

(** Scenario E of the specification, then a re-run. *)
Lemma run_decides_idempotently_witness :
  result (run Scenario.sprint2_dave Scenario.bot 7)
  = result (assign_reviewers Scenario.sprint2_dave Scenario.bot 7 ["bob"])
  /\ posts (events (run Scenario.sprint2_dave Scenario.bot 7)) = [["bob"]]
  /\ Spec.decide ["bob"; "carol"; "alice"] ({["dave"]} ∪ {["bob"]}) = Spec.NoOp
  /\ reruns 5 Scenario.sprint2_dave Scenario.bot 7 {["dave"]} = [["bob"]].
Proof.
  assert (result (get_reviewer_pool Scenario.sprint2_dave Scenario.bot)
          = Return ["bob"; "carol"; "alice"])
    as Hpool by (vm_compute; reflexivity).
  assert (result (get_pr_reviewers Scenario.sprint2_dave Scenario.bot 7) = Return {["dave"]})
    as HR by (vm_compute; reflexivity).
  assert ("bob" ∉ ({["dave"]} : gset string)) as Hnot
    by (apply (bool_decide_unpack _); vm_compute; exact I).
  destruct (run_decides_idempotently Scenario.sprint2_dave Scenario.bot 7
              "bob" ["carol"; "alice"] {["dave"]} Hpool HR) as (_ & Hassign & Hnoop & _ & Honce).
  destruct (Hassign Hnot) as (_ & Hres & Hposts).
  split; [exact Hres|]. split; [exact Hposts|]. split; [exact Hnoop|].
  apply (Honce 4%nat Hnot); reflexivity.
Defined.

(* ===================================================================== *)
(** ** Failure paths                                                      *)
(* ===================================================================== *)

(** Of the assigner, the pool only reads [config.pool_size]. *)
Lemma pool_reads_pool_size_only (env : Env) (self1 self2 : ReviewerAssigner) :
  pool_size (config self1) = pool_size (config self2) ->
  get_reviewer_pool env self1 = get_reviewer_pool env self2.
Proof. intros Hk. unfold get_reviewer_pool. by rewrite Hk. Qed.

Lemma init_returns (env : Env) (r t : string) (dry : bool) :
  result (init env r t dry)
  = Return {| repo := r; token := t; test_mode := dry; config := loaded_config env |}
  /\ posts (events (init env r t dry)) = [].
Proof.
  unfold init, load_config, loaded_config.
  destruct (config_json env); by rewrite ?bind_emit, ?bind_mret.
Qed.

Lemma run_empty_pool (env : Env) (self : ReviewerAssigner) (pr : Z) :
  result (get_reviewer_pool env self) = Return [] ->
  result (run env self pr) = Return false
  /\ posts (events (run env self pr)) = []
  /\ Log ERROR "No reviewers available in pool" ∈ events (run env self pr).
Proof.
  intros Hpool. split; [|split].
  - by rewrite (run_result env self pr [] Hpool).
  - by rewrite (run_posts env self pr [] Hpool).
  - rewrite (run_refines_decide env self pr [] Hpool). cbn [events snd].
    rewrite !elem_of_app. right; right. cbn. apply list_elem_of_here.
Qed.

(** The exit status of [main] when [run] fails. *)
Lemma main_exit_on_failure (env : Env) (pr : Z) (r : string) (dry : bool) :
  (forall t, result (run env {| repo := r; token := t; test_mode := dry;
                               config := loaded_config env |} pr) = Return false) ->
  exit_status (main env pr r dry) = 1.
Proof.
  intros Hrun. unfold main, exit_status.
  destruct (GITHUB_TOKEN env) as [[|c t]|]; [done| |done].
  destruct (init_returns env r (String c t) dry) as [Hinit _].
  rewrite (bind_returns _ _ _ Hinit). cbn [result fst].
  rewrite (bind_returns _ _ _ (Hrun _)). done.
Qed.

Lemma main_posts (env : Env) (pr : Z) (r : string) (dry : bool) :
  (forall t, posts (events (run env {| repo := r; token := t; test_mode := dry;
                                      config := loaded_config env |} pr)) = []) ->
  posts (events (main env pr r dry)) = [].
Proof.
  intros Hrun. unfold main.
  destruct (GITHUB_TOKEN env) as [[|c t]|]; [done| |done].
  destruct (init_returns env r (String c t) dry) as [Hinit Hw].
  rewrite (bind_returns _ _ _ Hinit). cbn [events snd].
  rewrite posts_app, Hw. cbn [app].
  specialize (Hrun (String c t)).
  destruct (run env _ pr) as [[[|]|e] w]; cbn in *; by rewrite ?app_nil_r.
Qed.

(** C5.  When the pool the run computes is empty, [run] returns [False]
    after logging "No reviewers available in pool" and sends no write
    request, whatever the current reviewers are; the pool is empty in
    particular when no maintainers were extracted and when the
    configured pool size is 0; and the process, whose assigner carries
    the loaded configuration, exits with status 1 without a write. *)
Theorem empty_pool_is_a_failure
    (env : Env) (self : ReviewerAssigner) (pr : Z) (r : string) (dry : bool) :
  (result (get_reviewer_pool env self) = Return [] ->
     result (run env self pr) = Return false
     /\ posts (events (run env self pr)) = []
     /\ Log ERROR "No reviewers available in pool" ∈ events (run env self pr))
  /\ (result (get_maintainers env self) = Return [] ->
      result (get_reviewer_pool env self) = Return [])
  /\ (pool_size (config self) = 0 ->
      result (get_reviewer_pool env self) = Return [])
  /\ (config self = loaded_config env ->
      result (get_reviewer_pool env self) = Return [] ->
      exit_status (main env pr r dry) = 1
      /\ posts (events (main env pr r dry)) = []).
Proof.
  split; [apply run_empty_pool|]. split; [|split].
  - intros HM. by rewrite get_reviewer_pool_empty.
  - intros Hk. destruct (get_maintainers_returns env self) as [M HM].
    destruct (decide (M = [])) as [->|Hne]; [by rewrite get_reviewer_pool_empty|].
    rewrite (get_reviewer_pool_nonempty env self M _ HM Hne)
      by (by rewrite get_current_sprint_number_eq).
    cbn [result fst]. f_equal. rewrite Hk.
    unfold slice_to. rewrite rotated_length.
    pose proof (len_nonneg M).
    rewrite slice_index_in_range by lia.
    replace (Z.min 0 (len M)) with 0 by lia. done.
  - intros Hcfg Hpool.
    assert (forall t, result (get_reviewer_pool env
                       {| repo := r; token := t; test_mode := dry;
                          config := loaded_config env |}) = Return []) as Hpool'.
    { intros t. rewrite <- Hpool. f_equal.
      apply pool_reads_pool_size_only. by rewrite Hcfg. }
    split.
    + apply main_exit_on_failure. intros t. by apply run_empty_pool.
    + apply main_posts. intros t. by apply run_empty_pool.
Qed.

(** Scenario F: no maintainers document. *)
Lemma empty_pool_is_a_failure_witness :
  result (run Scenario.orphan Scenario.bot 7) = Return false
  /\ posts (events (run Scenario.orphan Scenario.bot 7)) = []
  /\ exit_status (main Scenario.orphan 7 "bootc-dev/ci-sandbox" false) = 1
  /\ posts (events (main Scenario.orphan 7 "bootc-dev/ci-sandbox" false)) = [].
Proof.
  destruct (empty_pool_is_a_failure Scenario.orphan Scenario.bot 7
              "bootc-dev/ci-sandbox" false) as (Hrun & HM & _ & Hmain).
  assert (result (get_reviewer_pool Scenario.orphan Scenario.bot) = Return []) as Hpool
    by (apply HM; vm_compute; reflexivity).
  destruct (Hrun Hpool) as (Hres & Hposts & _).
  destruct (Hmain eq_refl Hpool) as (Hexit & Hmposts).
  done.
Defined.

(** C6 as stated fails.  The read of the current reviewers fails, and
    the run still decides, sends a write request for the primary
    reviewer and reports success. *)
Lemma read_failure_is_not_surfaced :
  requested_reviewers Scenario.unreadable "bootc-dev/ci-sandbox" 7
  = RequestException "503 Server Error"
  /\ run Scenario.unreadable Scenario.bot 7
     = (Return true,
        [HttpGet "bootc-dev/ci-sandbox" 7;
         Log ERROR "Error getting PR reviewers: 503 Server Error";
         HttpPost "bootc-dev/ci-sandbox" 7 ["alice"]])
  /\ result (run Scenario.unreadable Scenario.bot 7) <> Return false
  /\ posts (events (run Scenario.unreadable Scenario.bot 7)) <> [].
Proof. vm_compute. split; [done|]. split; [done|]. split; discriminate. Qed.

(** C6, amended.  A failure of the read of the current reviewers is
    logged and turned into the empty set inside [get_pr_reviewers]; the
    run goes on as for a pull request without requested reviewers: it
    takes the decision for the empty set, so that with a non-empty pool
    it assigns the primary reviewer and its outcome is that of the
    write. *)
Theorem read_failure_is_an_empty_set
    (env : Env) (self : ReviewerAssigner) (pr : Z) (e : string) (pool : list string) :
  requested_reviewers env (repo self) pr = RequestException e ->
  result (get_reviewer_pool env self) = Return pool ->
  get_pr_reviewers env self pr
  = (Return ∅, [HttpGet (repo self) pr; Log ERROR ("Error getting PR reviewers: " +:+ e)])
  /\ result (run env self pr) = result (execute env self pr (Spec.decide pool ∅))
  /\ posts (events (run env self pr))
     = posts (events (execute env self pr (Spec.decide pool ∅)))
  /\ (forall primary rest, pool = primary :: rest ->
        Spec.decide pool ∅ = Spec.AssignOne primary
        /\ result (run env self pr) = result (assign_reviewers env self pr [primary])
        /\ posts (events (run env self pr)) = (if test_mode self then [] else [[primary]])).
Proof.
  intros Hread Hpool.
  assert (observed env self pr = ∅) as Hobs by (unfold observed; by rewrite Hread).
  split; [|split; [|split]].
  - unfold get_pr_reviewers. by rewrite bind_emit, Hread.
  - by rewrite (run_result env self pr pool Hpool), Hobs.
  - by rewrite (run_posts env self pr pool Hpool), Hobs.
  - intros primary rest ->.
    assert (Spec.decide (primary :: rest) ∅ = Spec.AssignOne primary) as Hdec.
    { cbn. rewrite bool_decide_eq_false_2; [done|set_solver]. }
    split; [done|]. split.
    + by rewrite (run_result env self pr _ Hpool), Hobs, Hdec.
    + rewrite (run_posts env self pr _ Hpool), Hobs, Hdec. apply assign_one_posts.
Qed.

Lemma read_failure_is_an_empty_set_witness :
  result (run Scenario.unreadable Scenario.bot 7)
  = result (assign_reviewers Scenario.unreadable Scenario.bot 7 ["alice"])
  /\ posts (events (run Scenario.unreadable Scenario.bot 7)) = [["alice"]].
Proof.
  destruct (read_failure_is_an_empty_set Scenario.unreadable Scenario.bot 7
              "503 Server Error" ["alice"; "bob"; "carol"])
    as (_ & _ & _ & Hassign).
  - reflexivity.
  - vm_compute. reflexivity.
  - destruct (Hassign "alice" ["bob"; "carol"] eq_refl) as (_ & Hres & Hposts).
    split; [exact Hres | exact Hposts].
Defined.

(* ===================================================================== *)
(** ** The maintainer list                                                *)
(* ===================================================================== *)

Lemma first_seen_ok : set_order_ok Scenario.first_seen.
Proof.
  intros ins. split; [apply NoDup_remove_dups|].
  intros x. apply elem_of_remove_dups.
Qed.

Lemma last_seen_ok : set_order_ok Scenario.last_seen.
Proof.
  intros ins. unfold Scenario.last_seen. split.
  - rewrite reverse_Permutation. apply NoDup_remove_dups.
  - intros x. rewrite elem_of_reverse. apply elem_of_remove_dups.
Qed.

(** What the set does give: every identifier matched by one of the two
    patterns, once. *)
Lemma get_maintainers_deduplicated (env : Env) (self : ReviewerAssigner)
    (content : string) (M : list string) :
  set_order_ok (set_order env) ->
  maintainers_md env = Contents content ->
  result (get_maintainers env self) = Return M ->
  NoDup M /\ forall x, x ∈ M <-> x ∈ findall_at content ++ findall_link content.
Proof.
  intros Hok Hdoc. unfold get_maintainers. rewrite Hdoc. cbn.
  intros [= <-]. apply Hok.
Qed.

(** C7 on the code.  Two processes read the same maintainers document;
    their sets iterate in different orders, both within what Python
    guarantees of a set; they extract different sequences, and on the
    same day and pull request they request different reviewers. *)
Theorem maintainer_order_depends_on_the_process :
  maintainers_md (Scenario.pair Scenario.first_seen)
  = maintainers_md (Scenario.pair Scenario.last_seen)
  /\ set_order_ok (set_order (Scenario.pair Scenario.first_seen))
  /\ set_order_ok (set_order (Scenario.pair Scenario.last_seen))
  /\ result (get_maintainers (Scenario.pair Scenario.first_seen) Scenario.bot)
     = Return ["alice"; "bob"]
  /\ result (get_maintainers (Scenario.pair Scenario.last_seen) Scenario.bot)
     = Return ["bob"; "alice"]
  /\ posts (events (run (Scenario.pair Scenario.first_seen) Scenario.bot 7)) = [["alice"]]
  /\ posts (events (run (Scenario.pair Scenario.last_seen) Scenario.bot 7)) = [["bob"]].
Proof.
  split; [done|].
  split; [apply first_seen_ok|]. split; [apply last_seen_ok|].
  vm_compute. done.
Qed.

(* ===================================================================== *)
(** ** The configuration                                                  *)
(* ===================================================================== *)

Lemma run_reads_pool_size_only (env : Env) (self1 self2 : ReviewerAssigner) (pr : Z) :
  repo self1 = repo self2 ->
  test_mode self1 = test_mode self2 ->
  pool_size (config self1) = pool_size (config self2) ->
  run env self1 pr = run env self2 pr.
Proof.
  intros Hrepo Hdry Hk. unfold run.
  rewrite (pool_reads_pool_size_only env self1 self2 Hk).
  unfold get_pr_reviewers, assign_reviewers. by rewrite Hrepo, Hdry.
Qed.

(** C10.  Two processes that differ only in the configuration file, and
    there only in [weeks_per_sprint] and [reviewers_per_pr], compute
    the same sprint number (with the constant [SPRINT_WEEKS = 3]), the
    same pool, and do and return the same in [run] and in [main]. *)
Theorem only_pool_size_matters
    (env : Env) (c1 c2 : SprintConfig) (r t : string) (dry : bool) (pr : Z) :
  pool_size c1 = pool_size c2 ->
  get_current_sprint_number env (Build_ReviewerAssigner r t dry c1)
  = mret (Spec.sprintNumber (now env) (mk_datetime 2024 1 1) 3)
  /\ get_current_sprint_number env (Build_ReviewerAssigner r t dry c1)
     = get_current_sprint_number env (Build_ReviewerAssigner r t dry c2)
  /\ get_reviewer_pool env (Build_ReviewerAssigner r t dry c1)
     = get_reviewer_pool env (Build_ReviewerAssigner r t dry c2)
  /\ run env (Build_ReviewerAssigner r t dry c1) pr
     = run env (Build_ReviewerAssigner r t dry c2) pr
  /\ main (with_config env (Contents c1)) pr r dry
     = main (with_config env (Contents c2)) pr r dry.
Proof.
  intros Hk.
  split; [apply sprint_number_spec|]. split; [done|].
  split; [by apply pool_reads_pool_size_only|].
  split; [by apply run_reads_pool_size_only|].
  unfold main. cbn [GITHUB_TOKEN with_config].
  destruct (GITHUB_TOKEN env) as [[|c s]|]; [done| |done].
  unfold init, load_config. cbn [config_json with_config]. rewrite !bind_mret.
  f_equal.
  apply (run_reads_pool_size_only (with_config env (Contents c1))
           {| repo := r; token := String c s; test_mode := dry; config := c1 |}
           {| repo := r; token := String c s; test_mode := dry; config := c2 |});
    done.
Qed.

Lemma only_pool_size_matters_witness :
  pool_size Scenario.config1 = pool_size Scenario.config2
  /\ run Scenario.sprint2_dave (Scenario.assigner Scenario.config1 false) 7
     = run Scenario.sprint2_dave (Scenario.assigner Scenario.config2 false) 7
  /\ main (with_config Scenario.sprint2_dave (Contents Scenario.config1))
       7 "bootc-dev/ci-sandbox" false
     = main (with_config Scenario.sprint2_dave (Contents Scenario.config2))
         7 "bootc-dev/ci-sandbox" false.
Proof.
  split; [reflexivity|].
  destruct (only_pool_size_matters Scenario.sprint2_dave Scenario.config1 Scenario.config2
              "bootc-dev/ci-sandbox" "ghp_x" false 7)
    as (_ & _ & _ & Hrun & Hmain).
  - reflexivity.
  - split; [exact Hrun | exact Hmain].
Defined.

(* ===================================================================== *)
(** ** The run as a whole                                                 *)
(* ===================================================================== *)

(** What [main] comes to once the token is there. *)
Lemma main_with_token (env : Env) (pr : Z) (r : string) (dry : bool) (c : ascii) (t : string) :
  GITHUB_TOKEN env = Some (String c t) ->
  result (main env pr r dry)
  = match result (run env (Build_ReviewerAssigner r (String c t) dry (loaded_config env)) pr) with
    | Return true => Return tt
    | Return false => Raise (SystemExit 1)
    | Raise e => Raise e
    end.
Proof.
  intros Htok. unfold main. rewrite Htok.
  destruct (init_returns env r (String c t) dry) as [Hinit _].
  rewrite (bind_returns _ _ _ Hinit). cbn [result fst].
  destruct (run env _ pr) as [[[|]|e] w]; reflexivity.
Qed.

(** X2.  When the job passes: [main] returns (exit status 0) exactly
    when the token is set and not empty, the pool is not empty, and its
    first member is already requested, or the run is in test mode, or
    the service accepts the write. *)
Theorem job_passes_iff (env : Env) (pr : Z) (r : string) (dry : bool) :
  exit_status (main env pr r dry) = 0
  <-> exists (c : ascii) (t : string) (primary : string) (rest : list string),
        GITHUB_TOKEN env = Some (String c t)
        /\ result (get_reviewer_pool env
                     (Build_ReviewerAssigner r (String c t) dry (loaded_config env)))
           = Return (primary :: rest)
        /\ (primary ∈ observed env
                        (Build_ReviewerAssigner r (String c t) dry (loaded_config env)) pr
            \/ dry = true
            \/ request_reviewers env r pr [primary] = Response tt).
Proof.
  unfold exit_status. split.
  - destruct (GITHUB_TOKEN env) as [[|c t]|] eqn:Htok;
      [unfold main; by rewrite Htok | | unfold main; by rewrite Htok].
    rewrite (main_with_token env pr r dry c t Htok).
    set (self := Build_ReviewerAssigner r (String c t) dry (loaded_config env)).
    destruct (get_reviewer_pool_returns env self) as [pool Hpool].
    rewrite (run_result env self pr pool Hpool).
    destruct pool as [|primary rest]; [cbn [Spec.decide execute]; by rewrite bind_emit|].
    cbn [Spec.decide]. intros Hrun. exists c, t, primary, rest.
    split; [done|]. split; [done|].
    destruct (decide (primary ∈ observed env self pr)) as [Hin|Hout]; [by left|right].
    rewrite bool_decide_eq_false_2 in Hrun by done. cbn [execute] in Hrun.
    rewrite assign_one_result in Hrun. cbn [test_mode repo self] in Hrun.
    destruct dry; [by left|right].
    by destruct (request_reviewers env r pr [primary]) as [e|[]].
  - intros (c & t & primary & rest & Htok & Hpool & Hwhy).
    rewrite (main_with_token env pr r dry c t Htok).
    set (self := Build_ReviewerAssigner r (String c t) dry (loaded_config env)) in *.
    rewrite (run_result env self pr _ Hpool). cbn [Spec.decide].
    destruct (decide (primary ∈ observed env self pr)) as [Hin|Hout].
    + by rewrite bool_decide_eq_true_2.
    + rewrite bool_decide_eq_false_2 by done. cbn [execute].
      rewrite assign_one_result. cbn [test_mode repo self].
      destruct Hwhy as [Hin|[->|Hpost]]; [done|done|].
      rewrite Hpost. by destruct dry.
Qed.

Lemma job_passes_iff_witness :
  exit_status (main Scenario.sprint2_dave 7 "bootc-dev/ci-sandbox" false) = 0
  /\ exit_status (main Scenario.refused 7 "bootc-dev/ci-sandbox" false) <> 0.
Proof.
  split.
  - apply (proj2 (job_passes_iff Scenario.sprint2_dave 7 "bootc-dev/ci-sandbox" false)).
    exists "g"%char, "hp_x", "bob", ["carol"; "alice"].
    split; [reflexivity|]. split; [vm_compute; reflexivity|].
    right; right. reflexivity.
  - intros Hpass.
    apply (proj1 (job_passes_iff Scenario.refused 7 "bootc-dev/ci-sandbox" false)) in Hpass.
    destruct Hpass as (c & t & primary & rest & Htok & Hpool & Hwhy).
    injection Htok as <- <-.
    assert (primary = "alice") as -> by (vm_compute in Hpool; congruence).
    destruct Hwhy as [Hin|[Hdry|Hpost]]; [|discriminate|discriminate].
    revert Hin. apply (bool_decide_unpack _). vm_compute. exact I.
Defined.

(* ===================================================================== *)
(** ** What is written, and where                                         *)
(* ===================================================================== *)

Lemma execute_posts_test_mode (env : Env) (self : ReviewerAssigner) (pr : Z) (a : Spec.Action) :
  test_mode self = true -> posts (events (execute env self pr a)) = [].
Proof.
  intros Hdry. destruct a as [| |r]; cbn [execute]; [by rewrite bind_emit|done|].
  by rewrite assign_one_posts, Hdry.
Qed.

Lemma run_posts_test_mode (env : Env) (self : ReviewerAssigner) (pr : Z) :
  test_mode self = true -> posts (events (run env self pr)) = [].
Proof.
  intros Hdry. destruct (get_reviewer_pool_returns env self) as [pool Hpool].
  rewrite (run_posts env self pr pool Hpool). by apply execute_posts_test_mode.
Qed.

(** X4.  Test mode is a dry run: with [--test-mode] neither [run] nor
    [main] sends a write request, in any environment, and [run]
    succeeds whenever the pool is not empty, whatever the service would
    have answered to the write. *)
Theorem test_mode_never_writes
    (env : Env) (self : ReviewerAssigner) (pr : Z) (r : string) (pool : list string) :
  test_mode self = true ->
  result (get_reviewer_pool env self) = Return pool ->
  posts (events (run env self pr)) = []
  /\ posts (events (main env pr r true)) = []
  /\ result (run env self pr) = Return (negb (bool_decide (pool = []))).
Proof.
  intros Hdry Hpool. split; [by apply run_posts_test_mode|]. split.
  - apply main_posts. intros t. by apply run_posts_test_mode.
  - rewrite (run_result env self pr pool Hpool).
    destruct pool as [|primary rest]; [cbn [Spec.decide execute]; by rewrite bind_emit|].
    rewrite bool_decide_eq_false_2 by done. cbn [Spec.decide].
    destruct (bool_decide (primary ∈ observed env self pr)); [done|].
    cbn [execute]. by rewrite assign_one_result, Hdry.
Qed.

Lemma test_mode_never_writes_witness :
  posts (events (run Scenario.refused (Scenario.assigner default_config true) 7)) = []
  /\ posts (events (main Scenario.refused 7 "bootc-dev/ci-sandbox" true)) = []
  /\ result (run Scenario.refused (Scenario.assigner default_config true) 7) = Return true.
Proof.
  apply (test_mode_never_writes Scenario.refused (Scenario.assigner default_config true) 7
           "bootc-dev/ci-sandbox" ["alice"; "bob"; "carol"]).
  - reflexivity.
  - vm_compute. reflexivity.
Defined.

(** The pool is cut out of the maintainer list. *)
Lemma pool_is_a_prefix_of_a_rotation (env : Env) (self : ReviewerAssigner)
    (M pool : list string) :
  result (get_maintainers env self) = Return M ->
  result (get_reviewer_pool env self) = Return pool ->
  exists (o n : nat), pool = take n (drop o M ++ take o M).
Proof.
  intros HM Hpool. destruct (decide (M = [])) as [->|Hne].
  - rewrite get_reviewer_pool_empty in Hpool by done.
    injection Hpool as <-. by exists 0%nat, 0%nat.
  - rewrite (get_reviewer_pool_nonempty env self M _ HM Hne) in Hpool
      by (by rewrite get_current_sprint_number_eq).
    injection Hpool as <-. unfold slice_to at 1, slice_from, slice_to. eauto.
Qed.

Lemma rotation_Permutation {A} (o : nat) (l : list A) : drop o l ++ take o l ≡ₚ l.
Proof. rewrite (comm (++)). by rewrite take_drop. Qed.

Lemma pool_members (env : Env) (self : ReviewerAssigner) (M pool : list string) :
  result (get_maintainers env self) = Return M ->
  result (get_reviewer_pool env self) = Return pool ->
  pool ⊆ M.
Proof.
  intros HM Hpool.
  destruct (pool_is_a_prefix_of_a_rotation env self M pool HM Hpool) as (o & n & ->).
  intros x Hx. rewrite <- (rotation_Permutation o M).
  eapply sublist_subseteq; [apply sublist_take | exact Hx].
Qed.

(** X5.  What one run writes: nothing, or one request for one reviewer,
    who is a member of the extracted maintainer list and is not among
    the reviewers the run observed.  A run never requests two
    reviewers, never somebody outside the maintainer list, never
    somebody it saw as already requested, and never retries. *)
Theorem run_writes_at_most_one_maintainer
    (env : Env) (self : ReviewerAssigner) (pr : Z) (M : list string) :
  result (get_maintainers env self) = Return M ->
  (posts (events (run env self pr)) = [])
  \/ (exists p : string,
       posts (events (run env self pr)) = [[p]]
       /\ p ∈ M
       /\ (p ∉ observed env self pr)
       /\ test_mode self = false).
Proof.
  intros HM. destruct (get_reviewer_pool_returns env self) as [pool Hpool].
  rewrite (run_posts env self pr pool Hpool).
  destruct pool as [|primary rest]; [left; cbn [Spec.decide execute]; by rewrite bind_emit|].
  cbn [Spec.decide].
  destruct (decide (primary ∈ observed env self pr)) as [Hin|Hout].
  - left. by rewrite bool_decide_eq_true_2.
  - rewrite bool_decide_eq_false_2 by done. cbn [execute]. rewrite assign_one_posts.
    destruct (test_mode self) eqn:Hdry; [by left|right].
    exists primary. split; [done|]. split; [|done].
    apply (pool_members env self M _ HM Hpool). apply list_elem_of_here.
Qed.

Lemma run_writes_at_most_one_maintainer_witness :
  (posts (events (run Scenario.sprint2_dave Scenario.bot 7)) = [])
  \/ (exists p : string,
       posts (events (run Scenario.sprint2_dave Scenario.bot 7)) = [[p]]
       /\ p ∈ ["alice"; "bob"; "carol"]
       /\ (p ∉ observed Scenario.sprint2_dave Scenario.bot 7)
       /\ test_mode Scenario.bot = false).
Proof.
  apply (run_writes_at_most_one_maintainer Scenario.sprint2_dave Scenario.bot 7).
  vm_compute. reflexivity.
Defined.

(** The events of a run: the read, then log records, then at most the
    write with its log record. *)
Lemma run_events_decomposed (env : Env) (self : ReviewerAssigner) (pr : Z) :
  exists w1 w2 : list event,
    events (run env self pr) = HttpGet (repo self) pr :: w1 ++ w2
    /\ Forall (fun e => exists lv msg, e = Log lv msg) w1
    /\ Forall (fun e => (exists lv msg, e = Log lv msg)
                        \/ exists rs, e = HttpPost (repo self) pr rs) w2.
Proof.
  destruct (get_reviewer_pool_returns env self) as [pool Hpool].
  rewrite (run_refines_decide env self pr pool Hpool). cbn [events snd].
  assert (exists w, events (get_pr_reviewers env self pr) = HttpGet (repo self) pr :: w
                    /\ Forall (fun e => exists lv msg, e = Log lv msg) w) as (w1 & -> & Hw1).
  { unfold get_pr_reviewers. rewrite bind_emit. cbn [events snd].
    destruct (requested_reviewers env (repo self) pr) as [e|data]; eexists; (split; [done|]).
    - rewrite bind_emit. cbn. repeat constructor. eauto.
    - constructor. }
  assert (Forall (fun e => exists lv msg, e = Log lv msg) (events (get_reviewer_pool env self)))
    as Hw2.
  { destruct (get_maintainers_returns env self) as [M HM].
    assert (Forall (fun e => exists lv msg, e = Log lv msg) (events (get_maintainers env self))).
    { unfold get_maintainers. destruct (maintainers_md env);
        rewrite ?bind_emit; cbn; repeat constructor; eauto. }
    destruct (decide (M = [])) as [->|Hne].
    - by rewrite get_reviewer_pool_empty.
    - by rewrite (get_reviewer_pool_nonempty env self M _ HM Hne)
        by (by rewrite get_current_sprint_number_eq). }
  exists (w1 ++ events (get_reviewer_pool env self)),
         (events (execute env self pr (Spec.decide pool (observed env self pr)))).
  split; [by rewrite <- app_assoc|]. split; [by apply Forall_app|].
  destruct (Spec.decide pool (observed env self pr)) as [| |p]; cbn [execute].
  - rewrite bind_emit. cbn. repeat constructor. eauto.
  - constructor.
  - unfold assign_reviewers. rewrite bool_decide_eq_false_2 by done.
    destruct (test_mode self); [constructor|]. rewrite bind_emit. cbn [events snd].
    constructor; [right; eauto|].
    destruct (request_reviewers env (repo self) pr [p]);
      [rewrite bind_emit; cbn; constructor; [left; eauto|constructor] | constructor].
Qed.

Lemma no_gets (r : string) (pr : Z) (w : list event) :
  Forall (fun e => (exists lv msg, e = Log lv msg) \/ exists rs, e = HttpPost r pr rs) w ->
  gets w = [].
Proof.
  induction 1 as [|e w He _ IH]; [done|].
  by destruct He as [(lv & msg & ->)|(rs & ->)].
Qed.

Lemma run_gets (env : Env) (self : ReviewerAssigner) (pr : Z) :
  gets (events (run env self pr)) = [(repo self, pr)].
Proof.
  destruct (run_events_decomposed env self pr) as (w1 & w2 & -> & Hw1 & Hw2).
  change (HttpGet (repo self) pr :: w1 ++ w2) with ([HttpGet (repo self) pr] ++ w1 ++ w2).
  unfold gets. rewrite !omap_app. fold (gets w1) (gets w2).
  rewrite (no_gets (repo self) pr w1), (no_gets (repo self) pr w2); [done|done|].
  eapply Forall_impl; [exact Hw1|]. intros e He. by left.
Qed.

(** X6.  A run only addresses the pull request it was started for:
    every request it sends, read or write, goes to the assigner's
    repository and the given pull request number; it reads the
    requested reviewers exactly once, and that read is the first thing
    it does. *)
Theorem run_addresses_its_pull_request (env : Env) (self : ReviewerAssigner) (pr : Z) :
  Forall (fun e => target e = None \/ target e = Some (repo self, pr))
    (events (run env self pr))
  /\ head (events (run env self pr)) = Some (HttpGet (repo self) pr)
  /\ gets (events (run env self pr)) = [(repo self, pr)].
Proof.
  split; [|split; [|apply run_gets]].
  - destruct (run_events_decomposed env self pr) as (w1 & w2 & -> & Hw1 & Hw2).
    constructor; [by right|]. apply Forall_app. split.
    + eapply Forall_impl; [exact Hw1|]. intros e (lv & msg & ->). by left.
    + eapply Forall_impl; [exact Hw2|].
      intros e [(lv & msg & ->)|(rs & ->)]; [by left|by right].
  - by destruct (run_events_decomposed env self pr) as (w1 & w2 & -> & _ & _).
Qed.

(* ===================================================================== *)
(** ** The pool as a rotation                                             *)
(* ===================================================================== *)

(** X7.  The pool never invents or repeats anybody: for every pool size
    (negative ones too) its members are maintainers and it has no
    duplicates when the maintainer list has none; and with a pool size
    of at least the number of maintainers it is a rearrangement of the
    whole list, nobody lost. *)
Theorem pool_is_part_of_the_maintainers
    (env : Env) (self : ReviewerAssigner) (M pool : list string) :
  result (get_maintainers env self) = Return M ->
  result (get_reviewer_pool env self) = Return pool ->
  pool ⊆ M
  /\ (NoDup M -> NoDup pool)
  /\ (len M <= pool_size (config self) -> pool ≡ₚ M).
Proof.
  intros HM Hpool. split; [by apply (pool_members env self)|]. split.
  - destruct (pool_is_a_prefix_of_a_rotation env self M pool HM Hpool) as (o & n & ->).
    intros Hnd. eapply sublist_NoDup; [|apply sublist_take].
    by rewrite rotation_Permutation.
  - intros Hk. destruct (decide (M = [])) as [->|Hne].
    + rewrite get_reviewer_pool_empty in Hpool by done. by injection Hpool as <-.
    + assert (exists s, result (get_current_sprint_number env self) = Return s) as [s Hs]
        by (rewrite get_current_sprint_number_eq; eauto).
      rewrite (get_reviewer_pool_nonempty env self M s HM Hne Hs) in Hpool.
      injection Hpool as <-. unfold slice_to at 1. rewrite rotated_length.
      rewrite slice_index_in_range by (pose proof (len_nonneg M); lia).
      pose proof (rotated_length M ((s - 1) mod len M)) as Hlen.
      rewrite take_ge by (unfold len in *; lia).
      unfold slice_from, slice_to. apply rotation_Permutation.
Qed.

Lemma pool_is_part_of_the_maintainers_witness :
  ["bob"; "carol"; "alice"] ⊆ ["alice"; "bob"; "carol"]
  /\ NoDup ["bob"; "carol"; "alice"]
  /\ ["bob"; "carol"; "alice"] ≡ₚ ["alice"; "bob"; "carol"].
Proof.
  destruct (pool_is_part_of_the_maintainers Scenario.sprint2 Scenario.bot
              ["alice"; "bob"; "carol"] ["bob"; "carol"; "alice"])
    as (Hsub & Hnd & Hperm).
  - vm_compute. reflexivity.
  - vm_compute. reflexivity.
  - split; [exact Hsub|]. split.
    + apply Hnd. apply (bool_decide_unpack _). vm_compute. exact I.
    + apply Hperm. vm_compute. discriminate.
Defined.

(** The [i]-th element of a rotation. *)
Lemma rotation_lookup {A} (M : list A) (o i : nat) :
  (o < length M)%nat -> (i < length M)%nat ->
  (drop o M ++ take o M) !! i = M !! Z.to_nat ((Z.of_nat o + Z.of_nat i) mod len M).
Proof.
  intros Ho Hi. unfold len.
  destruct (decide (o + i < length M)%nat) as [Hlt|Hge].
  - rewrite lookup_app_l by (rewrite length_drop; lia).
    rewrite lookup_drop, Z.mod_small by lia. f_equal. lia.
  - rewrite lookup_app_r by (rewrite length_drop; lia).
    rewrite length_drop, lookup_take_lt by lia.
    replace (Z.of_nat o + Z.of_nat i)
      with (Z.of_nat o + Z.of_nat i - Z.of_nat (length M) + 1 * Z.of_nat (length M)) by lia.
    rewrite Z_mod_plus_full, Z.mod_small by lia. f_equal. lia.
Qed.

Lemma sprint_number_later (env : Env) (self : ReviewerAssigner) (i : Z) :
  result (get_current_sprint_number (at_time env (now env + i * SPRINT)) self)
  = Return (Spec.sprintNumber (now env) (mk_datetime 2024 1 1) SPRINT_WEEKS + i).
Proof.
  rewrite sprint_number_spec. cbn [result mret Py_ret fst now at_time get_sprint_start_date].
  f_equal. unfold Spec.sprintNumber, SPRINT.
  replace (now env + i * (SPRINT_WEEKS * 7 * US_PER_DAY) - mk_datetime 2024 1 1)
    with (now env - mk_datetime 2024 1 1 + i * (US_PER_DAY * (SPRINT_WEEKS * 7))) by lia.
  rewrite Z.div_add by done. lia.
Qed.

(** X8.  The pool is the rota of the coming sprints: its element at
    position [i] (within the pool size and the number of maintainers)
    is the primary reviewer, the head of the pool, [i] sprints later. *)
Theorem pool_lists_the_coming_primaries
    (env : Env) (self : ReviewerAssigner) (M : list string) (i : nat) :
  result (get_maintainers env self) = Return M ->
  (i < length M)%nat ->
  Z.of_nat i < pool_size (config self) ->
  exists (pool later : list string) (p : string),
    result (get_reviewer_pool env self) = Return pool
    /\ result (get_reviewer_pool (at_time env (now env + Z.of_nat i * SPRINT)) self)
       = Return later
    /\ pool !! i = Some p
    /\ head later = Some p.
Proof.
  intros HM Hi Hk.
  assert (M <> []) as Hne by (intros ->; simpl in Hi; lia).
  set (s := Spec.sprintNumber (now env) (mk_datetime 2024 1 1) SPRINT_WEEKS).
  assert (result (get_current_sprint_number env self) = Return s) as Hs
    by (by rewrite sprint_number_spec).
  pose proof (sprint_number_later env self (Z.of_nat i)) as Hs'. fold s in Hs'.
  rewrite (get_reviewer_pool_nonempty env self M s HM Hne Hs).
  rewrite (get_reviewer_pool_nonempty (at_time env (now env + Z.of_nat i * SPRINT)) self
             M (s + Z.of_nat i) HM Hne Hs').
  cbn [result fst].
  destruct (start_index_in_range M s Hne) as [_ Ho].
  destruct (start_index_in_range M (s + Z.of_nat i) Hne) as [_ Ho'].
  set (o := (s - 1) mod len M) in *. set (o' := (s + Z.of_nat i - 1) mod len M) in *.
  assert (o' = (o + Z.of_nat i) mod len M) as Ho'eq.
  { unfold o, o'. rewrite Z.add_mod_idemp_l by (pose proof (len_pos M Hne); lia).
    f_equal. lia. }
  pose proof (len_nonneg M) as Hlen.
  unfold slice_to at 1 3. rewrite !rotated_length.
  rewrite (slice_index_in_range (len M) (Z.min _ _)) by lia.
  unfold slice_from, slice_to.
  rewrite !slice_index_in_range by lia.
  assert (is_Some (M !! Z.to_nat o')) as [p Hp]
    by (apply lookup_lt_is_Some; unfold len in *; lia).
  do 2 eexists. exists p. split; [done|]. split; [done|]. split.
  - rewrite lookup_take_lt by (unfold len in *; lia).
    rewrite rotation_lookup by (unfold len in *; lia).
    rewrite Z2Nat.id by lia. by rewrite <- Ho'eq.
  - rewrite head_lookup, lookup_take_lt by (unfold len in *; lia).
    rewrite rotation_lookup by (unfold len in *; lia).
    rewrite Z2Nat.id, Z.add_0_r, Z.mod_small by lia. done.
Qed.

Lemma pool_lists_the_coming_primaries_witness :
  exists (pool later : list string) (p : string),
    result (get_reviewer_pool Scenario.sprint2 Scenario.bot) = Return pool
    /\ result (get_reviewer_pool
                 (at_time Scenario.sprint2 (now Scenario.sprint2 + Z.of_nat 2 * SPRINT))
                 Scenario.bot)
       = Return later
    /\ pool !! 2%nat = Some p
    /\ head later = Some p.
Proof.
  apply (pool_lists_the_coming_primaries Scenario.sprint2 Scenario.bot
           ["alice"; "bob"; "carol"] 2).
  - vm_compute. reflexivity.
  - simpl. lia.
  - vm_compute. reflexivity.
Defined.

(** X9.  A team of one: with a single maintainer and a pool size of at
    least one, the pool is that maintainer in every sprint. *)
Theorem single_maintainer_pool (env : Env) (self : ReviewerAssigner) (m : string) :
  result (get_maintainers env self) = Return [m] ->
  1 <= pool_size (config self) ->
  forall t : datetime, result (get_reviewer_pool (at_time env t) self) = Return [m].
Proof.
  intros HM Hk t.
  assert (exists s, result (get_current_sprint_number (at_time env t) self) = Return s)
    as [s Hs] by (rewrite get_current_sprint_number_eq; eauto).
  rewrite (get_reviewer_pool_nonempty (at_time env t) self [m] s HM) by done.
  cbn [result fst]. change (len [m]) with 1. rewrite Z.mod_1_r.
  replace (Z.min (pool_size (config self)) 1) with 1 by lia. reflexivity.
Qed.

Lemma single_maintainer_pool_witness :
  result (get_reviewer_pool (at_time Scenario.solo (Scenario.epoch - 1)) Scenario.bot)
  = Return ["alice"].
Proof.
  apply (single_maintainer_pool Scenario.solo Scenario.bot "alice").
  - vm_compute. reflexivity.
  - vm_compute. discriminate.
Defined.

(* ===================================================================== *)
(** ** Sprints as windows of time                                         *)
(* ===================================================================== *)

Lemma sprintNumber_window (t epoch w s : Z) :
  0 < w ->
  Spec.sprintNumber t epoch w = s
  <-> epoch + (s - 1) * (US_PER_DAY * (w * 7)) <= t < epoch + s * (US_PER_DAY * (w * 7)).
Proof.
  intros Hw. unfold Spec.sprintNumber. pose proof US_PER_DAY_pos as Hus.
  set (P := US_PER_DAY * (w * 7)). assert (0 < P) as HP by (unfold P; lia).
  pose proof (Z.div_mod (t - epoch) P ltac:(lia)) as Hdm.
  pose proof (Z.mod_pos_bound (t - epoch) P HP) as Hmod.
  split.
  - intros <-. nia.
  - intros [Hlo Hhi].
    assert ((t - epoch) / P = s - 1); [|lia].
    symmetry. apply (Z.div_unique_pos _ _ _ (t - epoch - (s - 1) * P)); lia.
Qed.

(** X10.  Sprint [s] is the window of [SPRINT_WEEKS * 7] days that starts
    [s - 1] sprint lengths after 2024-01-01 00:00: the method returns
    [s] exactly for the times from the start of that window up to, not
    including, the start of the next.  In particular the numbers from 1
    on are those of the times from the epoch on. *)
Theorem sprint_number_window (env : Env) (self : ReviewerAssigner) (s : Z) :
  (result (get_current_sprint_number env self) = Return s
   <-> mk_datetime 2024 1 1 + (s - 1) * SPRINT <= now env < mk_datetime 2024 1 1 + s * SPRINT)
  /\ (mk_datetime 2024 1 1 <= now env
      <-> exists n, result (get_current_sprint_number env self) = Return n /\ 1 <= n).
Proof.
  rewrite sprint_number_spec. cbn [result mret Py_ret fst get_sprint_start_date].
  assert (SPRINT = US_PER_DAY * (SPRINT_WEEKS * 7)) as -> by (unfold SPRINT; lia).
  split.
  - rewrite <- (sprintNumber_window (now env) (mk_datetime 2024 1 1) SPRINT_WEEKS s) by done.
    split; intros Heq; congruence.
  - split.
    + intros Hnow. eexists. split; [done|].
      pose proof (sprintNumber_mono (mk_datetime 2024 1 1) (now env) (mk_datetime 2024 1 1)
                    SPRINT_WEEKS ltac:(done) Hnow) as Hmono.
      unfold Spec.sprintNumber in Hmono at 1. rewrite Z.sub_diag in Hmono.
      by rewrite Z.div_0_l in Hmono by done.
    + intros (n & [= <-] & Hn).
      destruct (Z.le_gt_cases (mk_datetime 2024 1 1) (now env)) as [|Hlt]; [done|].
      pose proof (sprintNumber_before_epoch (now env) (mk_datetime 2024 1 1) SPRINT_WEEKS
                    ltac:(done) Hlt). lia.
Qed.

Lemma sprint_number_window_witness :
  result (get_current_sprint_number Scenario.sprint2 Scenario.bot) = Return 2
  /\ exists n, result (get_current_sprint_number Scenario.sprint2 Scenario.bot) = Return n
               /\ 1 <= n.
Proof.
  destruct (sprint_number_window Scenario.sprint2 Scenario.bot 2) as [Hwin Hpos].
  split.
  - apply Hwin. vm_compute. split; [discriminate|reflexivity].
  - apply Hpos. vm_compute. discriminate.
Defined.

Lemma run_depends_on_the_sprint_number (env : Env) (self : ReviewerAssigner) (pr : Z)
    (t1 t2 : datetime) :
  get_current_sprint_number (at_time env t1) self
  = get_current_sprint_number (at_time env t2) self ->
  run (at_time env t1) self pr = run (at_time env t2) self pr.
Proof.
  intros Hs. unfold run, get_reviewer_pool.
  change (get_maintainers (at_time env t1) self) with (get_maintainers env self).
  change (get_maintainers (at_time env t2) self) with (get_maintainers env self).
  rewrite Hs. reflexivity.
Qed.

(** X11.  Within one sprint the script does not change its mind: two
    runs at any two times of the same sprint window, everything else
    being equal, return the same and send the same requests and log
    records. *)
Theorem same_sprint_same_run
    (env : Env) (self : ReviewerAssigner) (pr : Z) (s : Z) (t1 t2 : datetime) :
  mk_datetime 2024 1 1 + (s - 1) * SPRINT <= t1 < mk_datetime 2024 1 1 + s * SPRINT ->
  mk_datetime 2024 1 1 + (s - 1) * SPRINT <= t2 < mk_datetime 2024 1 1 + s * SPRINT ->
  get_reviewer_pool (at_time env t1) self = get_reviewer_pool (at_time env t2) self
  /\ run (at_time env t1) self pr = run (at_time env t2) self pr.
Proof.
  intros H1 H2.
  assert (get_current_sprint_number (at_time env t1) self
          = get_current_sprint_number (at_time env t2) self) as Hs.
  { rewrite !sprint_number_spec. cbn [now at_time get_sprint_start_date]. f_equal.
    assert (SPRINT = US_PER_DAY * (SPRINT_WEEKS * 7)) as Heq by (unfold SPRINT; lia).
    rewrite Heq in H1, H2.
    apply (sprintNumber_window t1 (mk_datetime 2024 1 1) SPRINT_WEEKS s) in H1; [|done].
    apply (sprintNumber_window t2 (mk_datetime 2024 1 1) SPRINT_WEEKS s) in H2; [|done].
    congruence. }
  split; [|by apply run_depends_on_the_sprint_number].
  unfold get_reviewer_pool.
  change (get_maintainers (at_time env t1) self) with (get_maintainers env self).
  change (get_maintainers (at_time env t2) self) with (get_maintainers env self).
  by rewrite Hs.
Qed.

Lemma same_sprint_same_run_witness :
  run (at_time Scenario.sprint2_dave (Scenario.epoch + 21 * Scenario.day)) Scenario.bot 7
  = run (at_time Scenario.sprint2_dave (Scenario.epoch + 42 * Scenario.day - 1)) Scenario.bot 7.
Proof.
  apply (same_sprint_same_run Scenario.sprint2_dave Scenario.bot 7 2).
  - vm_compute. split; [discriminate|reflexivity].
  - vm_compute. split; [discriminate|reflexivity].
Defined.

(* ===================================================================== *)
(** ** The answers of the service and the configuration file              *)
(* ===================================================================== *)

(** X12.  The read of the requested reviewers is used as a set: two
    answers listing the same logins, in any order and with any
    repetitions, make the run do and return the same, and an answer
    without a ['users'] entry is treated as an empty list. *)
Theorem reply_is_read_as_a_set
    (env : Env) (self : ReviewerAssigner) (pr : Z) (users1 users2 : list string) :
  (forall x, x ∈ users1 <-> x ∈ users2) ->
  run (answering env (Response (Some users1))) self pr
  = run (answering env (Response (Some users2))) self pr
  /\ run (answering env (Response None)) self pr
     = run (answering env (Response (Some []))) self pr.
Proof.
  intros Hsame. split; [|reflexivity].
  assert ((list_to_set users1 : gset string) = list_to_set users2) as Hset.
  { apply set_eq. intros x. by rewrite !elem_of_list_to_set. }
  unfold run, get_pr_reviewers. cbn [requested_reviewers answering].
  by rewrite Hset.
Qed.

Lemma reply_is_read_as_a_set_witness :
  run (answering Scenario.sprint2 (Response (Some ["bob"; "dave"; "bob"]))) Scenario.bot 7
  = run (answering Scenario.sprint2 (Response (Some ["dave"; "bob"]))) Scenario.bot 7.
Proof.
  apply (reply_is_read_as_a_set Scenario.sprint2 Scenario.bot 7
           ["bob"; "dave"; "bob"] ["dave"; "bob"]).
  intros x. rewrite !elem_of_cons. tauto.
Defined.

Lemma main_events_with_token (env : Env) (pr : Z) (r : string) (dry : bool)
    (c : ascii) (t : string) :
  GITHUB_TOKEN env = Some (String c t) ->
  events (main env pr r dry)
  = events (load_config env)
    ++ events (run env (Build_ReviewerAssigner r (String c t) dry (loaded_config env)) pr).
Proof.
  intros Htok. unfold main. rewrite Htok.
  assert (init env r (String c t) dry
          = (Return (Build_ReviewerAssigner r (String c t) dry (loaded_config env)),
             events (load_config env))) as ->.
  { unfold init, load_config, loaded_config.
    destruct (config_json env); by rewrite ?bind_emit, ?bind_mret. }
  rewrite bind_Return. cbn [events snd]. f_equal.
  destruct (run env _ pr) as [[[|]|e] w]; cbn; by rewrite ?app_nil_r.
Qed.

(** X13.  A missing or unreadable configuration file never fails the
    job: it is logged (a warning when the file is missing, an error
    otherwise) and the job then runs as with a file holding the
    defaults 3, 2, 3: same exit, same requests. *)
Theorem config_errors_fall_back_to_defaults
    (env : Env) (pr : Z) (r : string) (dry : bool) (e : string) :
  result (main (with_config env FileNotFoundError) pr r dry)
  = result (main (with_config env (Contents default_config)) pr r dry)
  /\ result (main (with_config env (ReadException e)) pr r dry)
     = result (main (with_config env (Contents default_config)) pr r dry)
  /\ posts (events (main (with_config env FileNotFoundError) pr r dry))
     = posts (events (main (with_config env (Contents default_config)) pr r dry))
  /\ posts (events (main (with_config env (ReadException e)) pr r dry))
     = posts (events (main (with_config env (Contents default_config)) pr r dry))
  /\ gets (events (main (with_config env FileNotFoundError) pr r dry))
     = gets (events (main (with_config env (Contents default_config)) pr r dry))
  /\ gets (events (main (with_config env (ReadException e)) pr r dry))
     = gets (events (main (with_config env (Contents default_config)) pr r dry))
  /\ load_config (with_config env FileNotFoundError)
     = (Return default_config,
        [Log WARNING "Config file .github/scripts/config.json not found, using defaults"])
  /\ load_config (with_config env (ReadException e))
     = (Return default_config, [Log ERROR ("Error loading config: " +:+ e)]).
Proof.
  destruct (GITHUB_TOKEN env) as [[|c t]|] eqn:Htok;
    [unfold main; cbn [GITHUB_TOKEN with_config]; by rewrite Htok | |
     unfold main; cbn [GITHUB_TOKEN with_config]; by rewrite Htok].
  rewrite !(main_with_token _ pr r dry c t) by done.
  rewrite !(main_events_with_token _ pr r dry c t) by done.
  unfold posts, gets. rewrite !omap_app. done.
Qed.

(* ===================================================================== *)
(** ** Extraction of the maintainers                                      *)
(* ===================================================================== *)

Lemma span_name_spec (s n r : list ascii) :
  span_name s = (n, r) ->
  forallb name_char n = true
  /\ s = n ++ r
  /\ match r with [] => True | c :: _ => name_char c = false end.
Proof.
  revert n r. induction s as [|c s IH]; intros n r; cbn [span_name].
  - by intros [= <- <-].
  - destruct (name_char c) eqn:Hc.
    + destruct (span_name s) as [n' r']. intros [= <- <-].
      destruct (IH n' r' eq_refl) as (Hn & -> & Hr).
      cbn [forallb]. by rewrite Hc, Hn.
    + intros [= <- <-]. by rewrite Hc.
Qed.

Lemma span_name_app (n r : list ascii) :
  forallb name_char n = true ->
  match r with [] => True | c :: _ => name_char c = false end ->
  span_name (n ++ r) = (n, r).
Proof.
  intros Hn Hr. induction n as [|c n IH]; cbn [app span_name].
  - destruct r as [|c r]; [done|]. cbn [span_name]. by rewrite Hr.
  - cbn [forallb] in Hn. apply andb_true_iff in Hn as [-> Hn]. by rewrite IH.
Qed.

Lemma name_plus_spec (s g r : list ascii) :
  name_plus s = Some (g, r) ->
  g <> [] /\ forallb name_char g = true /\ s = g ++ r.
Proof.
  unfold name_plus. destruct (span_name s) as [n r'] eqn:Hspan.
  destruct (span_name_spec s n r' Hspan) as (Hn & Hs & _).
  destruct n as [|c n]; [done|]. by intros [= <- <-].
Qed.

(** The group of a match of either pattern is a handle. *)
Lemma at_pattern_group (s g : list ascii) (n : nat) :
  at_pattern s = Some (g, n) -> g <> [] /\ forallb name_char g = true.
Proof.
  unfold at_pattern. destruct s as [|c s]; [done|].
  destruct (Ascii.eqb c "@"); [|done].
  destruct (name_plus s) as [[g' r]|] eqn:Hplus; [|done].
  intros [= <- <-]. destruct (name_plus_spec s g' r Hplus) as (? & ? & _). done.
Qed.

Lemma link_pattern_group (s g : list ascii) (n : nat) :
  link_pattern s = Some (g, n) -> g <> [] /\ forallb name_char g = true.
Proof.
  unfold link_pattern. destruct s as [|c s]; [done|].
  destruct (Ascii.eqb c "["); [|done].
  destruct (name_plus s) as [[g' r]|] eqn:Hplus; [|done].
  destruct (name_plus_spec s g' r Hplus) as (? & ? & _).
  destruct (literal _ r) as [s3|]; [|done].
  destruct (name_plus s3) as [[u s4]|]; [|done].
  destruct s4 as [|c4 s4]; [done|].
  destruct (Ascii.eqb c4 ")"); [|done]. by intros [= <- <-].
Qed.

Lemma handle_of_group (g : list ascii) :
  g <> [] -> forallb name_char g = true -> handle (string_of_list_ascii g) = true.
Proof.
  intros Hne Hg. unfold handle. rewrite list_ascii_of_string_of_list_ascii.
  by destruct g.
Qed.

Lemma findall_handles (m : list ascii -> option (list ascii * nat)) :
  (forall s g n, m s = Some (g, n) -> g <> [] /\ forallb name_char g = true) ->
  forall (s : list ascii) (skip : nat) (x : string),
    x ∈ findall m skip s -> handle x = true.
Proof.
  intros Hm s. induction s as [|c s IH]; intros skip x; cbn [findall].
  - by intros ?%elem_of_nil.
  - destruct skip as [|k]; [|apply IH].
    destruct (m (c :: s)) as [[g n]|] eqn:Hmatch; [|apply IH].
    intros [->|Hx]%elem_of_cons; [|by apply (IH (n - 1)%nat)].
    destruct (Hm _ _ _ Hmatch). by apply handle_of_group.
Qed.

Lemma maintainers_are_found (env : Env) (self : ReviewerAssigner) (M : list string) :
  set_order_ok (set_order env) ->
  result (get_maintainers env self) = Return M ->
  forall x, x ∈ M ->
    exists content, maintainers_md env = Contents content
                    /\ (x ∈ findall_at content \/ x ∈ findall_link content).
Proof.
  intros Hok. unfold get_maintainers.
  destruct (maintainers_md env) as [|e|content]; rewrite ?bind_emit; cbn.
  - intros [= <-] x ?%elem_of_nil. done.
  - intros [= <-] x ?%elem_of_nil. done.
  - intros [= <-] x Hx. exists content. split; [done|].
    destruct (Hok (findall_at content ++ findall_link content)) as [_ Hmem].
    apply Hmem in Hx. by apply elem_of_app in Hx.
Qed.

Lemma run_posts_cases (env : Env) (self : ReviewerAssigner) (pr : Z) (M : list string) :
  result (get_maintainers env self) = Return M ->
  (posts (events (run env self pr)) = [])
  \/ (exists p : string, posts (events (run env self pr)) = [[p]] /\ p ∈ M).
Proof.
  intros HM. destruct (get_reviewer_pool_returns env self) as [pool Hpool].
  rewrite (run_posts env self pr pool Hpool).
  destruct pool as [|primary rest]; [left; cbn [Spec.decide execute]; by rewrite bind_emit|].
  cbn [Spec.decide].
  destruct (bool_decide (primary ∈ observed env self pr)); [by left|].
  cbn [execute]. rewrite assign_one_posts.
  destruct (test_mode self); [by left|right].
  exists primary. split; [done|].
  apply (pool_members env self M _ HM Hpool). apply list_elem_of_here.
Qed.

(** X14.  Whatever the maintainers document holds, every extracted
    maintainer is a handle, a non-empty string over letters, digits,
    [_] and [-], and so is every reviewer a run asks the service to
    add: no free text of the document reaches the request. *)
Theorem maintainers_are_handles
    (env : Env) (self : ReviewerAssigner) (pr : Z) (M : list string) :
  set_order_ok (set_order env) ->
  result (get_maintainers env self) = Return M ->
  Forall (fun x => handle x = true) M
  /\ Forall (Forall (fun x => handle x = true)) (posts (events (run env self pr))).
Proof.
  intros Hok HM.
  assert (Forall (fun x => handle x = true) M) as Hall.
  { apply Forall_forall. intros x Hx.
    destruct (maintainers_are_found env self M Hok HM x Hx) as (content & _ & [Hat|Hlink]).
    - by apply (findall_handles at_pattern at_pattern_group _ _ _ Hat).
    - by apply (findall_handles link_pattern link_pattern_group _ _ _ Hlink). }
  split; [done|].
  destruct (run_posts_cases env self pr M HM) as [->|(p & -> & Hp)]; [constructor|].
  repeat constructor. by apply (proj1 (Forall_forall _ _) Hall).
Qed.

Lemma maintainers_are_handles_witness :
  Forall (fun x => handle x = true) ["alice"; "bob"; "carol"]
  /\ Forall (Forall (fun x => handle x = true))
       (posts (events (run Scenario.sprint2_dave Scenario.bot 7))).
Proof.
  apply (maintainers_are_handles Scenario.sprint2_dave Scenario.bot 7 ["alice"; "bob"; "carol"]).
  - intros ins. split; [apply NoDup_remove_dups|]. intros x. apply elem_of_remove_dups.
  - vm_compute. reflexivity.
Defined.

Lemma list_ascii_of_string_app (a b : string) :
  list_ascii_of_string (a +:+ b) = list_ascii_of_string a ++ list_ascii_of_string b.
Proof. induction a as [|c a IH]; [done|]. simpl. by f_equal. Qed.

(** [re.findall] misses no match that starts with a character [ch] the
    pattern cannot cover after its first position: whatever precedes,
    the scan is not inside an earlier match when it reaches it. *)
Lemma findall_finds (m : list ascii -> option (list ascii * nat)) (ch : ascii)
    (g : list ascii) (n : nat) (body : list ascii) :
  (forall c s g' n', m (c :: s) = Some (g', n') ->
                     Forall (fun a => a <> ch) (take (n' - 1) s)) ->
  m (ch :: body) = Some (g, n) ->
  forall (pre : list ascii) (skip : nat),
    Forall (fun a => a <> ch) (take skip (pre ++ ch :: body)) ->
    string_of_list_ascii g ∈ findall m skip (pre ++ ch :: body).
Proof.
  intros Hcover Hmatch pre. induction pre as [|c pre IH]; intros skip Hskip.
  - cbn [app findall]. destruct skip as [|k].
    + rewrite Hmatch. apply list_elem_of_here.
    + cbn [take] in Hskip. by apply Forall_cons in Hskip as [? _].
  - cbn [app findall]. destruct skip as [|k].
    + destruct (m (c :: pre ++ ch :: body)) as [[g' n']|] eqn:Hm.
      * apply list_elem_of_further, IH. by apply (Hcover c _ g' n').
      * apply IH. constructor.
    + apply IH. cbn [app take] in Hskip. by apply Forall_cons in Hskip as [_ ?].
Qed.

Lemma name_chars_differ (ch : ascii) (g : list ascii) :
  name_char ch = false -> forallb name_char g = true -> Forall (fun a => a <> ch) g.
Proof.
  intros Hch Hg. apply Forall_forall. intros a Ha ->.
  rewrite forallb_forall in Hg. apply list_elem_of_In in Ha.
  specialize (Hg ch Ha). congruence.
Qed.

Lemma at_pattern_cover (c : ascii) (s g : list ascii) (n : nat) :
  at_pattern (c :: s) = Some (g, n) ->
  Forall (fun a => a <> "@"%char) (take (n - 1) s).
Proof.
  unfold at_pattern. destruct (Ascii.eqb c "@"); [|done].
  destruct (name_plus s) as [[g' r]|] eqn:Hplus; [|done]. intros [= <- <-].
  destruct (name_plus_spec s g' r Hplus) as (_ & Hg & ->).
  replace (S (length g') - 1)%nat with (length g') by lia.
  rewrite take_app_length. by apply name_chars_differ.
Qed.

Lemma name_plus_app (n r : list ascii) :
  n <> [] -> forallb name_char n = true ->
  match r with [] => True | c :: _ => name_char c = false end ->
  name_plus (n ++ r) = Some (n, r).
Proof.
  intros Hne Hn Hr. unfold name_plus. rewrite span_name_app by done. by destruct n.
Qed.

Lemma handle_chars (x : string) :
  handle x = true ->
  list_ascii_of_string x <> [] /\ forallb name_char (list_ascii_of_string x) = true.
Proof. unfold handle. by destruct (list_ascii_of_string x). Qed.

(** X15.  No mention is overlooked: wherever the document has an [@]
    followed by a handle that ends there (at the end of the text or
    before a character that cannot continue it), that handle is among
    the extracted maintainers, whatever comes before and after. *)
Theorem every_mention_is_extracted
    (env : Env) (self : ReviewerAssigner) (pre name rest : string) (M : list string) :
  set_order_ok (set_order env) ->
  maintainers_md env = Contents (pre +:+ "@" +:+ name +:+ rest) ->
  handle name = true ->
  match rest with EmptyString => True | String c _ => name_char c = false end ->
  result (get_maintainers env self) = Return M ->
  name ∈ M.
Proof.
  intros Hok Hdoc Hname Hrest. unfold get_maintainers. rewrite Hdoc. cbn.
  intros [= <-].
  destruct (Hok (findall_at (pre +:+ "@" +:+ name +:+ rest)
                 ++ findall_link (pre +:+ "@" +:+ name +:+ rest))) as [_ Hmem].
  apply Hmem, elem_of_app. left.
  unfold findall_at. rewrite !list_ascii_of_string_app.
  destruct (handle_chars name Hname) as [Hne Hchars].
  rewrite <- (string_of_list_ascii_of_string name) at 1.
  change (list_ascii_of_string "@") with ["@"%char]. cbn [app].
  apply (findall_finds at_pattern "@"
           (list_ascii_of_string name) (S (length (list_ascii_of_string name)))).
  - apply at_pattern_cover.
  - cbn [at_pattern]. rewrite Ascii.eqb_refl, name_plus_app; [done..|].
    by destruct rest.
  - constructor.
Qed.

Lemma every_mention_is_extracted_witness :
  "bob" ∈ ["alice"; "bob"; "carol"].
Proof.
  apply (every_mention_is_extracted Scenario.sprint2 Scenario.bot
           "# Maintainers: @alice, " "bob" ", @carol").
  - intros ins. split; [apply NoDup_remove_dups|]. intros x. apply elem_of_remove_dups.
  - reflexivity.
  - reflexivity.
  - reflexivity.
  - vm_compute. reflexivity.
Defined.

Lemma literal_spec (lit s r : list ascii) : literal lit s = Some r -> s = lit ++ r.
Proof.
  revert s. induction lit as [|a lit IH]; intros s; cbn [literal].
  - by intros [= ->].
  - destruct s as [|b s]; [done|].
    destruct (Ascii.eqb a b) eqn:Hab; [|done].
    apply Ascii.eqb_eq in Hab as ->. intros Hs. cbn [app]. f_equal. by apply IH.
Qed.

Lemma literal_app (lit r : list ascii) : literal lit (lit ++ r) = Some r.
Proof.
  induction lit as [|a lit IH]; cbn [app literal]; [by destruct r|].
  by rewrite Ascii.eqb_refl.
Qed.

Lemma link_pattern_cover (c : ascii) (s g : list ascii) (n : nat) :
  link_pattern (c :: s) = Some (g, n) ->
  Forall (fun a => a <> "["%char) (take (n - 1) s).
Proof.
  unfold link_pattern. destruct (Ascii.eqb c "["); [|done].
  destruct (name_plus s) as [[g' r]|] eqn:Hplus; [|done].
  destruct (name_plus_spec s g' r Hplus) as (_ & Hg & ->).
  destruct (literal _ r) as [s3|] eqn:Hlit; [|done].
  apply literal_spec in Hlit as ->.
  destruct (name_plus s3) as [[u s4]|] eqn:Hplus'; [|done].
  destruct (name_plus_spec s3 u s4 Hplus') as (_ & Hu & ->).
  destruct s4 as [|c4 s4]; [done|].
  destruct (Ascii.eqb c4 ")") eqn:Hc4; [|done].
  apply Ascii.eqb_eq in Hc4 as ->. intros [= <- <-].
  set (lit := list_ascii_of_string "](https://github.com/").
  replace (S (length g' + 21 + length u + 1) - 1)%nat
    with (length (g' ++ lit ++ u ++ [")"%char]))
    by (rewrite !length_app; cbn; lia).
  replace (g' ++ lit ++ u ++ ")"%char :: s4)
    with ((g' ++ lit ++ u ++ [")"%char]) ++ s4)
    by (by rewrite <- !app_assoc).
  rewrite take_app_length.
  repeat (apply Forall_app; split); [by apply name_chars_differ | | by apply name_chars_differ |].
  - unfold lit. cbn. repeat constructor; discriminate.
  - repeat constructor; discriminate.
Qed.

(** X16.  No link is overlooked, and it is the link text that counts:
    wherever the document has [[name](https://github.com/user)] with
    two handles, [name] is among the extracted maintainers, whatever
    account the link itself points to. *)
Theorem every_link_is_extracted
    (env : Env) (self : ReviewerAssigner) (pre name user rest : string) (M : list string) :
  set_order_ok (set_order env) ->
  maintainers_md env
  = Contents (pre +:+ "[" +:+ name +:+ "](https://github.com/" +:+ user +:+ ")" +:+ rest) ->
  handle name = true ->
  handle user = true ->
  result (get_maintainers env self) = Return M ->
  name ∈ M.
Proof.
  intros Hok Hdoc Hname Huser. unfold get_maintainers. rewrite Hdoc. cbn.
  intros [= <-].
  set (content := pre +:+ "[" +:+ name +:+ "](https://github.com/" +:+ user +:+ ")" +:+ rest).
  destruct (Hok (findall_at content ++ findall_link content)) as [_ Hmem].
  apply Hmem, elem_of_app. right.
  unfold findall_link, content. rewrite !list_ascii_of_string_app.
  destruct (handle_chars name Hname) as [Hne Hchars].
  destruct (handle_chars user Huser) as [Hne' Hchars'].
  rewrite <- (string_of_list_ascii_of_string name) at 1.
  change (list_ascii_of_string "[") with ["["%char].
  change (list_ascii_of_string ")") with [")"%char]. cbn [app].
  apply (findall_finds link_pattern "["
           (list_ascii_of_string name)
           (1 + length (list_ascii_of_string name) + 21
            + length (list_ascii_of_string user) + 1)).
  - apply link_pattern_cover.
  - cbn [link_pattern]. rewrite Ascii.eqb_refl.
    rewrite name_plus_app by done. rewrite literal_app.
    rewrite name_plus_app by done. by rewrite Ascii.eqb_refl.
  - constructor.
Qed.

Lemma every_link_is_extracted_witness :
  "Dave" ∈ Scenario.first_seen ["Dave"].
Proof.
  apply (every_link_is_extracted
           (with_maintainers Scenario.sprint2 "- [Dave](https://github.com/dave-real), lead")
           Scenario.bot "- " "Dave" "dave-real" ", lead").
  - intros ins. split; [apply NoDup_remove_dups|]. intros x. apply elem_of_remove_dups.
  - reflexivity.
  - reflexivity.
  - reflexivity.
  - vm_compute. reflexivity.
Defined.

(* ===================================================================== *)
(** ** The token, failed writes, and the size of the pool                 *)
(* ===================================================================== *)

(** X17.  Nothing is done without a token: when [GITHUB_TOKEN] is unset
    or empty, [main] logs that and leaves through [sys.exit(1)], and
    this one log record is all it did: no request was sent.  With a
    token it sends exactly one read, for the given repository and pull
    request. *)
Theorem no_token_no_request (env : Env) (pr : Z) (r : string) (dry : bool) :
  (GITHUB_TOKEN env = None \/ GITHUB_TOKEN env = Some "" ->
   main env pr r dry
   = (Raise (SystemExit 1), [Log ERROR "GITHUB_TOKEN environment variable not set"]))
  /\ gets (events (main env pr r dry))
     = match GITHUB_TOKEN env with
       | None | Some "" => []
       | Some _ => [(r, pr)]
       end.
Proof.
  split.
  - intros [Htok|Htok]; unfold main; by rewrite Htok.
  - destruct (GITHUB_TOKEN env) as [[|c t]|] eqn:Htok;
      [unfold main; by rewrite Htok | | unfold main; by rewrite Htok].
    rewrite (main_events_with_token env pr r dry c t Htok).
    unfold gets. rewrite omap_app.
    pose proof (run_gets env (Build_ReviewerAssigner r (String c t) dry (loaded_config env)) pr)
      as Hgets.
    unfold gets in Hgets. rewrite Hgets.
    unfold load_config. by destruct (config_json env).
Qed.

Lemma no_token_no_request_witness :
  main (with_token Scenario.sprint2 (Some "")) 7 "bootc-dev/ci-sandbox" false
  = (Raise (SystemExit 1), [Log ERROR "GITHUB_TOKEN environment variable not set"]).
Proof.
  apply (no_token_no_request (with_token Scenario.sprint2 (Some "")) 7
           "bootc-dev/ci-sandbox" false).
  right. reflexivity.
Defined.

(** X18.  A refused write is neither retried within the run nor
    remembered: the run sends the one request, logs the error and
    returns [False], and as long as the service keeps refusing, every
    re-run of the job sends the same single request again. *)
Theorem refused_write_is_retried_by_the_next_run
    (env : Env) (self : ReviewerAssigner) (pr : Z)
    (primary : string) (rest : list string) (R : gset string) (e : string) :
  result (get_reviewer_pool env self) = Return (primary :: rest) ->
  primary ∉ R ->
  test_mode self = false ->
  request_reviewers env (repo self) pr [primary] = RequestException e ->
  run (observing env R) self pr
  = (Return false,
     events (get_pr_reviewers (observing env R) self pr)
     ++ events (get_reviewer_pool env self)
     ++ [HttpPost (repo self) pr [primary];
         Log ERROR ("Error assigning reviewers: " +:+ e)])
  /\ forall n : nat, reruns n env self pr R = replicate n [primary].
Proof.
  intros Hpool Hout Hlive Hpost.
  assert (run (observing env R) self pr
          = (Return false,
             events (get_pr_reviewers (observing env R) self pr)
             ++ events (get_reviewer_pool env self)
             ++ [HttpPost (repo self) pr [primary];
                 Log ERROR ("Error assigning reviewers: " +:+ e)])) as Hrun.
  { rewrite (run_refines_decide (observing env R) self pr (primary :: rest))
      by (by rewrite pool_observing).
    rewrite observed_observing. cbn [Spec.decide].
    rewrite bool_decide_eq_false_2 by done. cbn [execute].
    unfold assign_reviewers. rewrite bool_decide_eq_false_2 by done.
    rewrite Hlive, bind_emit. cbn [request_reviewers observing]. rewrite Hpost.
    rewrite bind_emit. reflexivity. }
  split; [done|].
  intros n. induction n as [|n IH]; [done|].
  cbn [reruns replicate]. rewrite Hrun. cbn [events snd].
  rewrite !posts_app, get_pr_reviewers_no_posts, get_reviewer_pool_no_posts.
  cbn [app posts omap]. f_equal.
  rewrite !service_after_app.
  rewrite (service_after_no_posts env R (events (get_pr_reviewers _ _ _)))
    by apply get_pr_reviewers_no_posts.
  rewrite (service_after_no_posts env R (events (get_reviewer_pool _ _)))
    by apply get_reviewer_pool_no_posts.
  cbn. by rewrite Hpost.
Qed.

Lemma refused_write_is_retried_by_the_next_run_witness :
  reruns 3 Scenario.refused Scenario.bot 7 {["dave"]} = [["alice"]; ["alice"]; ["alice"]].
Proof.
  apply (refused_write_is_retried_by_the_next_run Scenario.refused Scenario.bot 7
           "alice" ["bob"; "carol"] {["dave"]} "422 Unprocessable Entity").
  - vm_compute. reflexivity.
  - apply (bool_decide_unpack _). vm_compute. exact I.
  - reflexivity.
  - reflexivity.
Defined.

(** X19.  The size of the pool for every configured [pool_size]: with
    maintainers [M], a size [k >= 0] gives [min(k, |M|)] reviewers,
    and a negative [k] does not give an empty pool but the rotation
    without its last [-k] members, [max(0, |M| + k)] reviewers. *)
Theorem pool_length_for_every_pool_size
    (env : Env) (self : ReviewerAssigner) (M pool : list string) :
  result (get_maintainers env self) = Return M ->
  result (get_reviewer_pool env self) = Return pool ->
  len pool
  = (if pool_size (config self) <? 0
     then Z.max 0 (len M + pool_size (config self))
     else Z.min (pool_size (config self)) (len M)).
Proof.
  intros HM Hpool. pose proof (len_nonneg M) as Hlen.
  destruct (decide (M = [])) as [->|Hne].
  - rewrite get_reviewer_pool_empty in Hpool by done. injection Hpool as <-.
    change (len (@nil string)) with 0.
    destruct (Z.ltb_spec (pool_size (config self)) 0); lia.
  - assert (exists s, result (get_current_sprint_number env self) = Return s) as [s Hs]
      by (rewrite get_current_sprint_number_eq; eauto).
    rewrite (get_reviewer_pool_nonempty env self M s HM Hne Hs) in Hpool.
    injection Hpool as <-.
    pose proof (rotated_length M ((s - 1) mod len M)) as Hrot.
    unfold slice_to at 1. rewrite Hrot. unfold len at 1. rewrite length_take.
    fold (len (slice_from M ((s - 1) mod len M) ++ slice_to M ((s - 1) mod len M))).
    rewrite Nat2Z.inj_min. fold (len (slice_from M ((s - 1) mod len M)
                                      ++ slice_to M ((s - 1) mod len M))).
    rewrite Hrot. unfold slice_index.
    destruct (Z.ltb_spec (pool_size (config self)) 0);
      destruct (Z.ltb_spec (Z.min (pool_size (config self)) (len M)) 0); lia.
Qed.

Lemma pool_length_for_every_pool_size_witness :
  len ["alice"; "bob"] = (if -1 <? 0 then Z.max 0 (len ["alice"; "bob"; "carol"] + -1)
                          else Z.min (-1) (len ["alice"; "bob"; "carol"])).
Proof.
  apply (pool_length_for_every_pool_size (Scenario.team Scenario.epoch [])
           (Scenario.assigner
              {| weeks_per_sprint := 3; reviewers_per_pr := 2; pool_size := -1 |} false)
           ["alice"; "bob"; "carol"] ["alice"; "bob"]).
  - vm_compute. reflexivity.
  - vm_compute. reflexivity.
Defined.
